(** * titles2bib: the fallback bibliographic lookup (fallback_search.py)

    A shallow embedding of [src/fallback_search.py] and the properties of its
    title-similarity guard, of the two per-service searches and of the
    orchestrator.

    Modelling conventions.
    - A Python [str] is a [string]; the character [c] stands for the code
      point [N_of_ascii c], so the model covers the texts over the code points
      0..255 (ASCII and the Latin-1 supplement).  The character classes
      below are those of the Unicode database on that range, which is what
      [str.lower], [str.split] and the [re] classes [\w], [\s], [\d] consult.
    - [set(...)] is a [gset string].
    - A raised exception is a value of [exn]; code that may raise returns an
      [outcome].
    - Everything outside the module (the HTTP client, the XML parser, the
      scholarly package, the console, the clock) is a [world] of answers and
      a trace of [event]s. *)

From Stdlib Require Import ZArith QArith String Ascii List Lia.
From Stdlib Require Import PrimFloat Uint63.
From stdpp Require Import gmap strings list.

Local Open Scope string_scope.
Local Open Scope list_scope.

(** ** Characters *)

Module Char.

Definition code (c : ascii) : N := N_of_ascii c.

Definition between (lo hi : N) (c : ascii) : bool :=
  ((lo <=? code c) && (code c <=? hi))%N.

Definition is_code (n : N) (c : ascii) : bool := (code c =? n)%N.

(** [\d] on [str] patterns: the decimal digits (category Nd). *)
Definition isdecimal (c : ascii) : bool := between 48 57 c.

(** [str.isalpha]: A-Z, a-z, and the letters of the Latin-1 supplement
    (U+00AA, U+00B5, U+00BA, U+00C0-U+00D6, U+00D8-U+00F6, U+00F8-U+00FF). *)
Definition isalpha (c : ascii) : bool :=
  between 65 90 c || between 97 122 c
  || is_code 170 c || is_code 181 c || is_code 186 c
  || between 192 214 c || between 216 246 c || between 248 255 c.

(** The characters with a numeric value that are not decimal digits:
    superscripts U+00B2, U+00B3, U+00B9 and the fractions U+00BC-U+00BE. *)
Definition isnumeric_other (c : ascii) : bool :=
  is_code 178 c || is_code 179 c || is_code 185 c || between 188 190 c.

(** [str.isalnum]. *)
Definition isalnum (c : ascii) : bool :=
  isalpha c || isdecimal c || isnumeric_other c.

(** [\w] on [str] patterns: alphanumeric or the underscore. *)
Definition isword (c : ascii) : bool := isalnum c || is_code 95 c.

(** [str.isspace], also [\s]: U+0009-U+000D, U+001C-U+0020, U+0085,
    U+00A0. *)
Definition isspace (c : ascii) : bool :=
  between 9 13 c || between 28 32 c || is_code 133 c || is_code 160 c.

(** [str.lower] on one character: A-Z and U+00C0-U+00DE except U+00D7
    move up by 32. *)
Definition lower (c : ascii) : ascii :=
  if between 65 90 c || between 192 214 c || between 216 222 c
  then ascii_of_N (code c + 32)
  else c.

End Char.

(** ** Strings *)

Module Str.

Fixpoint map (f : ascii -> ascii) (s : string) : string :=
  match s with
  | EmptyString => EmptyString
  | String c s' => String (f c) (map f s')
  end.

Fixpoint forallb (p : ascii -> bool) (s : string) : bool :=
  match s with
  | EmptyString => true
  | String c s' => p c && forallb p s'
  end.

(** [s.lower()] *)
Definition lower (s : string) : string := map Char.lower s.

(** The maximal non-empty runs of characters satisfying [p], left to right.
    A character satisfying [p] joins the run that starts right after it,
    or opens a new run when the next character does not continue it. *)
Fixpoint runs (p : ascii -> bool) (s : string) : list string :=
  match s with
  | EmptyString => []
  | String c s' =>
      if p c then
        match s' with
        | EmptyString => [String c EmptyString]
        | String c' _ =>
            if p c' then
              match runs p s' with
              | t :: ts => String c t :: ts
              | [] => [String c EmptyString]
              end
            else String c EmptyString :: runs p s'
        end
      else runs p s'
  end.

(** [re.findall(r'\w+', s)] *)
Definition findall_word (s : string) : list string := runs Char.isword s.

(** [s.split()]: the whitespace-separated words, none of them empty. *)
Definition split (s : string) : list string :=
  runs (fun c => negb (Char.isspace c)) s.

(** [sep.join(l)] *)
Definition join (sep : string) (l : list string) : string :=
  String.concat sep l.

(** [s.split(sep)] for a one-character separator: the pieces between the
    separators, empty pieces kept; never an empty list. *)
Fixpoint split_on (sep : ascii) (s : string) : list string :=
  match s with
  | EmptyString => [EmptyString]
  | String c s' =>
      if Ascii.eqb c sep then EmptyString :: split_on sep s'
      else
        match split_on sep s' with
        | t :: ts => String c t :: ts
        | [] => [String c EmptyString]
        end
  end.

(** [s[:n]] *)
Fixpoint take (n : nat) (s : string) : string :=
  match n, s with
  | S n', String c s' => String c (take n' s')
  | _, _ => EmptyString
  end.

(** [needle in s] *)
Fixpoint contains (needle s : string) : bool :=
  String.prefix needle s
  || match s with
     | EmptyString => false
     | String _ s' => contains needle s'
     end.

(** Truthiness of a [str]: non-empty. *)
Definition truthy (s : string) : bool :=
  match s with EmptyString => false | String _ _ => true end.

(** The longest prefix inside [p] and what follows it. *)
Fixpoint take_while (p : ascii -> bool) (s : string) : string :=
  match s with
  | EmptyString => EmptyString
  | String c s' => if p c then String c (take_while p s') else EmptyString
  end.

Fixpoint drop_while (p : ascii -> bool) (s : string) : string :=
  match s with
  | EmptyString => EmptyString
  | String c s' => if p c then drop_while p s' else s
  end.

(** The first character of a string is outside [p], or there is none. *)
Definition starts_outside (p : ascii -> bool) (s : string) : Prop :=
  match s with
  | EmptyString => True
  | String c _ => p c = false
  end.

(** The last character of a string is outside [p], or there is none. *)
Definition ends_outside (p : ascii -> bool) (s : string) : Prop :=
  s = "" \/ exists s' c, s = s' +:+ String c "" /\ p c = false.

(** [t] is a word of [s] for the class [p]: a non-empty stretch of [s] made
    of characters of [p] that cannot be extended on either side. *)
Definition run_of (p : ascii -> bool) (t s : string) : Prop :=
  t <> "" /\ forallb p t = true /\
  exists pre post,
    s = pre +:+ t +:+ post /\ ends_outside p pre /\ starts_outside p post.

(** The last character, if any. *)
Fixpoint last_char (s : string) : option ascii :=
  match s with
  | EmptyString => None
  | String c EmptyString => Some c
  | String _ s' => last_char s'
  end.

End Str.

(** ** The similarity guard (lines 89-103) *)

(** [normalize] of [_title_similar]: [set(re.findall(r'\w+', s.lower()))]. *)
Definition normalize (s : string) : gset string :=
  list_to_set (Str.findall_word (Str.lower s)).

(** The default of the keyword argument [threshold].  The source compares
    the binary64 quotient of the two sizes with the binary64 literal 0.7;
    the model compares the exact quotient with 7/10.  The two agree as long
    as the quotient, when it is not 7/10, is further from 7/10 than the
    rounding error, which holds for every set that fits in memory;
    [binary64_agrees] below checks it in binary64 itself for unions of up
    to 256 tokens. *)
Definition default_threshold : Q := 7 # 10.

(** [len(x)] of a set. *)
Definition len (x : gset string) : Q := inject_Z (Z.of_nat (size x)).

Definition _title_similar_with (threshold : Q) (title1 title2 : string) : bool :=
  let words1 := normalize title1 in
  let words2 := normalize title2 in
  if bool_decide (words1 = ∅) || bool_decide (words2 = ∅) then false
  else
    let intersection := words1 ∩ words2 in
    let union := words1 ∪ words2 in
    Qle_bool threshold (len intersection / len union).

Definition _title_similar (title1 title2 : string) : bool :=
  _title_similar_with default_threshold title1 title2.

(** The comparison of line 103 as the source evaluates it, in binary64, on
    the two sizes: the literal [0.7] is the double [0x1.6666666666666p-1],
    a size below 2^53 converts exactly, and the division rounds once. *)
Definition threshold_binary64 : float := 0x1.6666666666666p-1%float.

Definition float_of_size (n : nat) : float :=
  PrimFloat.of_uint63 (Uint63.of_Z (Z.of_nat n)).

Definition reaches_binary64 (i u : nat) : bool :=
  PrimFloat.leb threshold_binary64
    (PrimFloat.div (float_of_size i) (float_of_size u)).

(** The same comparison in the rationals, as [_title_similar_with] has it. *)
Definition reaches_exact (i u : nat) : bool :=
  Qle_bool default_threshold
    (inject_Z (Z.of_nat i) / inject_Z (Z.of_nat u)).

(** The two comparisons agree for every union of at most [n] tokens. *)
Definition binary64_agrees_upto (n : nat) : bool :=
  List.forallb
    (fun u =>
       List.forallb
         (fun i => Bool.eqb (reaches_binary64 i (S u)) (reaches_exact i (S u)))
         (seq 0 (S (S u))))
    (seq 0 n).

(** ** Exceptions and effects *)

(** The exception classes that matter to the handlers of the module. *)
Inductive exn : Type :=
  | AttributeError              (* [None.split], [None.text] *)
  | TypeError                   (* [None[:4]], [join] over a [None] item *)
  | IndexError                  (* [[][-1]] *)
  | ImportError
  | ModuleNotFoundError         (* a subclass of [ImportError] *)
  | LibraryError (name : string) (* any other subclass of [Exception] *)
  | KeyboardInterrupt           (* a [BaseException] outside [Exception] *)
  | SystemExit.                 (* likewise *)

(** [isinstance(e, Exception)] *)
Definition isinstance_Exception (e : exn) : bool :=
  match e with
  | KeyboardInterrupt | SystemExit => false
  | _ => true
  end.

(** [isinstance(e, ImportError)] *)
Definition isinstance_ImportError (e : exn) : bool :=
  match e with
  | ImportError | ModuleNotFoundError => true
  | _ => false
  end.

Inductive outcome (A : Type) : Type :=
  | Returns (a : A)
  | Raises (e : exn).
Arguments Returns {A} a.
Arguments Raises {A} e.

(** The lines the module prints. *)
Inductive message : Type :=
  | MsgArxivError (e : exn)     (* line 85 *)
  | MsgScholarlyMissing         (* line 141 *)
  | MsgScholarError (e : exn)   (* line 205 *)
  | MsgTryArxiv                 (* line 220 *)
  | MsgArxivFound               (* line 223 *)
  | MsgArxivNotFound            (* line 226 *)
  | MsgTryScholar               (* line 230 *)
  | MsgScholarFound             (* line 234 *)
  | MsgScholarNotFound.         (* line 237 *)

(** The query parameters of the e-print request (lines 24-29). *)
Record params : Type := {
  search_query : string;
  start : Z;
  max_results : Z;
  sortBy : string
}.

Inductive event : Type :=
  | Print (line : message)
  | HttpGet (url : string) (p : params) (timeout : Z)   (* [requests.get] *)
  | ImportScholarly                     (* [from scholarly import scholarly] *)
  | SearchPubs (title : string)         (* [scholarly.search_pubs] *)
  | NextPub                             (* [next(search_query, None)] *)
  | Sleep (seconds : Z).                (* [time.sleep] *)

(** A computation: its outcome and the events it performed, in order. *)
Definition io (A : Type) : Type := outcome A * list event.

Definition ret {A} (a : A) : io A := (Returns a, []).

Definition bind {A B} (m : io A) (k : A -> io B) : io B :=
  match m with
  | (Returns a, t) => let '(r, t') := k a in (r, t ++ t')
  | (Raises e, t) => (Raises e, t)
  end.

(** An operation of the outside world: the event and the world's answer. *)
Definition call {A} (ev : event) (answer : outcome A) : io A := (answer, [ev]).

Definition emit (ev : event) : io unit := call ev (Returns tt).

(** A computation without events. *)
Definition lift {A} (o : outcome A) : io A := (o, []).

(** [try: body  except cls as e: handler]: the handler runs when the body
    raised an instance of [cls]; any other exception goes on to the caller. *)
Definition try_except {A} (body : io A) (cls : exn -> bool)
    (handler : exn -> io A) : io A :=
  match body with
  | (Raises e, t) =>
      if cls e then let '(r, t') := handler e in (r, t ++ t')
      else (Raises e, t)
  | (Returns a, t) => (Returns a, t)
  end.

Declare Scope io_scope.
Delimit Scope io_scope with io.
Notation "x <- m ;; k" := (bind m (fun x => k))
  (at level 100, m at next level, right associativity) : io_scope.
Notation "m ;;; k" := (bind m (fun _ => k))
  (at level 100, right associativity) : io_scope.

Definition result_of {A} (m : io A) : outcome A := fst m.
Definition trace_of {A} (m : io A) : list event := snd m.

(** ** The XML feed *)

(** An [xml.etree.ElementTree.Element]: its tag in the [{uri}local] form,
    its [.text] ([None] when the element has no text) and its children. *)
#[warning="-register-all"] Inductive element : Type :=
  | Element (tag : string) (text : option string) (children : list element).

Module ET.

Definition tag (e : element) : string :=
  match e with Element t _ _ => t end.
Definition text (e : element) : option string :=
  match e with Element _ t _ => t end.
Definition children (e : element) : list element :=
  match e with Element _ _ cs => cs end.

(** The [ns] dictionary of lines 39-40, applied to a prefixed name. *)
Definition atom (name : string) : string :=
  "{http://www.w3.org/2005/Atom}" +:+ name.
Definition arxiv (name : string) : string :=
  "{http://arxiv.org/schemas/atom}" +:+ name.

(** [e.findall(name)]: the children with that tag, in document order. *)
Definition findall (name : string) (e : element) : list element :=
  List.filter (fun c => String.eqb (tag c) name) (children e).

(** [e.find(name)]: the first such child, or [None]. *)
Definition find (name : string) (e : element) : option element :=
  head (findall name e).

(** [e.findall('a/b')] *)
Definition findall_path (a b : string) (e : element) : list element :=
  flat_map (findall b) (findall a e).

End ET.

(** ** The scholarly record *)

(** The value under ['author']: one string or a list of strings. *)
Inductive author_field : Type :=
  | AuthorStr (s : string)
  | AuthorList (l : list string).

(** The ['bib'] mapping; an absent key is [None]. *)
Record bib_record : Type := {
  bib_title : option string;
  bib_author : option author_field;
  bib_pub_year : option string;
  bib_venue : option string;
  bib_journal : option string;
  bib_booktitle : option string
}.

(** [{}] *)
Definition empty_bib : bib_record :=
  {| bib_title := None; bib_author := None; bib_pub_year := None;
     bib_venue := None; bib_journal := None; bib_booktitle := None |}.

Record publication : Type := {
  pub_bib : option bib_record;
  pub_url : option string
}.

(** ** The outside world *)

Record response : Type := {
  status_code : Z;
  text : string
}.

Record world : Type := {
  (** [requests.get(url, params=params, timeout=timeout)] *)
  requests_get : string -> params -> Z -> outcome response;
  (** [ET.fromstring(text)] *)
  fromstring : string -> outcome element;
  (** [from scholarly import scholarly] *)
  import_scholarly : outcome unit;
  (** [scholarly.search_pubs(title)]; when it returns, the behaviour of the
      first [next(_, None)] on the iterator it returned *)
  search_pubs : string -> outcome (outcome (option publication))
}.

Local Open Scope io_scope.

(** ** String constants *)

Definition nl : string := String "010"%char EmptyString.
Definition dquote : string := String "034"%char EmptyString.

(** The separator of the author list (lines 113 and 178). *)
Definition author_sep : string := " and" +:+ nl +:+ "               ".

(** ** The e-print search (lines 12-126) *)

(** [re.sub(r'[^\w\s]', ' ', title)] *)
Definition blank_punctuation (title : string) : string :=
  Str.map (fun c => if Char.isword c || Char.isspace c then c else " "%char)
          title.

(** The tail of a match of [\d+$]: one or more decimal digits, then the end
    of the string or the newline that ends the string.  [Some rest] is what
    follows the digits: [""] or that newline. *)
Fixpoint digits_to_end (s : string) : option string :=
  match s with
  | EmptyString => None
  | String c s' =>
      if Char.isdecimal c then
        match digits_to_end s' with
        | Some rest => Some rest
        | None =>
            if String.eqb s' EmptyString || String.eqb s' nl then Some s'
            else None
        end
      else None
  end.

(** [re.sub(r'v\d+$', '', s)]: the leftmost match is removed; what follows
    a match holds no further one. *)
Fixpoint strip_version (s : string) : string :=
  match s with
  | EmptyString => EmptyString
  | String c s' =>
      if Ascii.eqb c "v"%char then
        match digits_to_end s' with
        | Some rest => rest
        | None => String c (strip_version s')
        end
      else String c (strip_version s')
  end.

(** [x.split()[-1]] for [x] a [str] or [None]. *)
Definition last_word (x : option string) : outcome string :=
  match x with
  | None => Raises AttributeError
  | Some s =>
      match last (Str.split s) with
      | Some w => Returns w
      | None => Raises IndexError
      end
  end.

(** [authors[0].split()[-1] if authors else 'Unknown'] (lines 109, 169) *)
Definition first_author_lastname (authors : list (option string))
    : outcome string :=
  match authors with
  | [] => Returns "Unknown"
  | a :: _ => last_word a
  end.

(** [sep.join(items)] where an item may be [None]. *)
Definition join_items (sep : string) (items : list (option string))
    : outcome string :=
  match mapM id items with
  | Some l => Returns (Str.join sep l)
  | None => Raises TypeError
  end.

Definition obind {A B} (o : outcome A) (k : A -> outcome B) : outcome B :=
  match o with
  | Returns a => k a
  | Raises e => Raises e
  end.

(** Lines 106-126.  [doi] and [journal_ref] are accepted and not used. *)
Definition _format_arxiv_bibtex (arxiv_id title : string)
    (authors : list (option string)) (year : string)
    (doi journal_ref : option string) : outcome string :=
  obind (first_author_lastname authors) (fun first_author_lastname =>
  let cite_key := "arxiv:" +:+ first_author_lastname +:+ year in
  obind (join_items author_sep authors) (fun author_str =>
  let bibtex_lines :=
    [ "@article{" +:+ cite_key +:+ ",";
      "  author    = {" +:+ author_str +:+ "},";
      "  title     = {{" +:+ title +:+ "}},";
      "  journal   = {arXiv preprint arXiv:" +:+ arxiv_id +:+ "},";
      "  year      = {" +:+ year +:+ "}" ] in
  let bibtex_lines := bibtex_lines ++ ["}"] in
  Returns (Str.join nl bibtex_lines +:+ nl))).

(** Lines 49-52: the title of the entry with its whitespace collapsed;
    [None] when the entry has no title element. *)
Definition entry_title_of (entry : element) : option (outcome string) :=
  match ET.find (ET.atom "title") entry with
  | None => None
  | Some entry_title =>
      Some match ET.text entry_title with
           | None => Raises AttributeError
           | Some t => Returns (Str.join " " (Str.split t))
           end
  end.

(** Lines 59-60 *)
Definition author_list_of (entry : element) : list (option string) :=
  List.map ET.text (ET.findall_path (ET.atom "author") (ET.atom "name") entry).

(** Lines 62-63 *)
Definition year_of (entry : element) : outcome string :=
  match ET.find (ET.atom "published") entry with
  | None => Returns ""
  | Some published =>
      match ET.text published with
      | None => Raises TypeError
      | Some t => Returns (Str.take 4 t)
      end
  end.

(** Lines 65-68 *)
Definition arxiv_id_of (entry : element) : outcome string :=
  obind
    match ET.find (ET.atom "id") entry with
    | None => Returns ""
    | Some arxiv_id_elem =>
        match ET.text arxiv_id_elem with
        | None => Raises AttributeError
        | Some t =>
            match last (Str.split_on "/" t) with
            | Some seg => Returns seg
            | None => Raises IndexError
            end
        end
    end
    (fun arxiv_id => Returns (strip_version arxiv_id)).

(** Lines 73-74 and 77-78: [elem.text if elem is not None else None] *)
Definition optional_text (name : string) (entry : element) : option string :=
  match ET.find name entry with
  | None => None
  | Some elem => ET.text elem
  end.

(** Lines 46-82: from the first entry to the record. *)
Definition entry_to_bibtex (title : string) (entry : element)
    : outcome (option string) :=
  match entry_title_of entry with
  | None => Returns None
  | Some o =>
      obind o (fun entry_title =>
      if negb (_title_similar title entry_title) then Returns None
      else
        let author_list := author_list_of entry in
        obind (year_of entry) (fun year =>
        obind (arxiv_id_of entry) (fun arxiv_id =>
        let doi := optional_text (ET.arxiv "doi") entry in
        let journal_ref := optional_text (ET.arxiv "journal_ref") entry in
        obind (_format_arxiv_bibtex arxiv_id entry_title author_list year
                 doi journal_ref) (fun bibtex =>
        Returns (Some bibtex)))))
  end.

Definition arxiv_url : string := "http://export.arxiv.org/api/query".

(** Lines 19-29 *)
Definition arxiv_params (title : string) (max_results : Z) : params :=
  let clean_title := blank_punctuation title in
  let clean_title := Str.join " " (Str.split clean_title) in
  {| search_query := "ti:" +:+ dquote +:+ clean_title +:+ dquote;
     start := 0;
     max_results := max_results;
     sortBy := "relevance" |}.

(** Lines 18-82: the body of the [try]. *)
Definition search_arxiv_body (w : world) (title : string) (max_results : Z)
    : io (option string) :=
  let p := arxiv_params title max_results in
  response <- call (HttpGet arxiv_url p 30) (requests_get w arxiv_url p 30) ;;
  if negb (status_code response =? 200)%Z then ret None
  else
    root <- lift (fromstring w (text response)) ;;
    match ET.findall (ET.atom "entry") root with
    | [] => ret None
    | entry :: _ => lift (entry_to_bibtex title entry)
    end.

(** Lines 12-86 *)
Definition search_arxiv (w : world) (title : string) (max_results : Z)
    : io (option string) :=
  try_except (search_arxiv_body w title max_results)
    isinstance_Exception
    (fun e => emit (Print (MsgArxivError e)) ;;; ret None).

(** ** The scholarly search (lines 131-206) *)

(** [d.get(key, default)] on an optional text field. *)
Definition get_default (field : option string) (default : string) : string :=
  match field with
  | Some v => v
  | None => default
  end.

(** [result.get('bib', {})] *)
Definition bib_of (result : publication) : bib_record :=
  match pub_bib result with
  | Some b => b
  | None => empty_bib
  end.

(** Lines 161-163: [bib.get('author', ['Unknown'])], a single string made a
    one-element list. *)
Definition authors_of (bib : bib_record) : list string :=
  match bib_author bib with
  | None => ["Unknown"]
  | Some (AuthorStr s) => [s]
  | Some (AuthorList l) => l
  end.

(** Line 166 *)
Definition venue_of (bib : bib_record) : string :=
  get_default (bib_venue bib)
    (get_default (bib_journal bib) (get_default (bib_booktitle bib) "")).

(** Lines 173-175 *)
Definition pub_type_of (venue : string) : string :=
  if Str.contains "conference" (Str.lower venue)
     || Str.contains "proceedings" (Str.lower venue)
     || Str.contains "symposium" (Str.lower venue)
  then "inproceedings"
  else "article".

(** Lines 158-202: from a result that passed the guard to the record. *)
Definition scholar_bibtex (result : publication) (result_title : string)
    : outcome string :=
  let bib := bib_of result in
  let authors := authors_of bib in
  let year := get_default (bib_pub_year bib) "" in
  let venue := venue_of bib in
  obind (first_author_lastname (List.map Some authors))
    (fun first_author_lastname =>
  let cite_key := "scholar:" +:+ first_author_lastname +:+ year in
  let pub_type := pub_type_of venue in
  let author_str := Str.join author_sep authors in
  let bibtex_lines :=
    [ "@" +:+ pub_type +:+ "{" +:+ cite_key +:+ ",";
      "  author    = {" +:+ author_str +:+ "},";
      "  title     = {" +:+ result_title +:+ "}," ] in
  let bibtex_lines :=
    if String.eqb pub_type "inproceedings"
    then bibtex_lines ++ ["  booktitle = {" +:+ venue +:+ "},"]
    else bibtex_lines ++ ["  journal   = {" +:+ venue +:+ "},"] in
  let bibtex_lines :=
    if Str.truthy year
    then bibtex_lines ++ ["  year      = {" +:+ year +:+ "},"]
    else bibtex_lines in
  let pub_url := get_default (pub_url result) "" in
  let bibtex_lines :=
    if Str.truthy pub_url
    then bibtex_lines ++ ["  url       = {" +:+ pub_url +:+ "},"]
    else bibtex_lines in
  let bibtex_lines := bibtex_lines ++ ["}"] in
  Returns (Str.join nl bibtex_lines +:+ nl)).

(** Lines 145-202: the body of the second [try]. *)
Definition search_google_scholar_body (w : world) (title : string)
    : io (option string) :=
  search_query <- call (SearchPubs title) (search_pubs w title) ;;
  result <- call NextPub search_query ;;
  match result with
  | None => ret None
  | Some result =>
      let result_title := get_default (bib_title (bib_of result)) "" in
      if negb (_title_similar title result_title) then ret None
      else
        bibtex <- lift (scholar_bibtex result result_title) ;;
        ret (Some bibtex)
  end.

(** Lines 131-206.  The import has a handler of its own, for [ImportError]
    only; [max_results] is accepted and not used. *)
Definition search_google_scholar (w : world) (title : string)
    (max_results : Z) : io (option string) :=
  imported <-
    try_except (call ImportScholarly (import_scholarly w) ;;; ret true)
      isinstance_ImportError
      (fun _ => emit (Print MsgScholarlyMissing) ;;; ret false) ;;
  if negb imported then ret None
  else
    try_except (search_google_scholar_body w title)
      isinstance_Exception
      (fun e => emit (Print (MsgScholarError e)) ;;; ret None).

(** ** The orchestrator (lines 211-239) *)

(** Truthiness of a value that is [None] or a [str]. *)
Definition truthy (bibtex : option string) : bool :=
  match bibtex with
  | Some s => Str.truthy s
  | None => false
  end.

(** One stage of the orchestrator: [Some r] when the stage executed
    [return r], [None] when control goes on to the next statement. *)
Definition arxiv_stage (w : world) (title : string) (use_arxiv : bool)
    : io (option (option string)) :=
  if use_arxiv then
    emit (Print MsgTryArxiv) ;;;
    bibtex <- search_arxiv w title 1 ;;
    if truthy bibtex then emit (Print MsgArxivFound) ;;; ret (Some bibtex)
    else emit (Print MsgArxivNotFound) ;;; ret None
  else ret None.

Definition scholar_stage (w : world) (title : string) (use_scholar : bool)
    : io (option (option string)) :=
  if use_scholar then
    emit (Print MsgTryScholar) ;;;
    emit (Sleep 1) ;;;
    bibtex <- search_google_scholar w title 1 ;;
    if truthy bibtex then emit (Print MsgScholarFound) ;;; ret (Some bibtex)
    else emit (Print MsgScholarNotFound) ;;; ret None
  else ret None.

Definition fallback_search (w : world) (title : string)
    (use_arxiv use_scholar : bool) : io (option string) :=
  returned <- arxiv_stage w title use_arxiv ;;
  match returned with
  | Some bibtex => ret bibtex
  | None =>
      returned <- scholar_stage w title use_scholar ;;
      match returned with
      | Some bibtex => ret bibtex
      | None => ret None
      end
  end.

(** ** Vocabulary of the properties *)

(** The token set as the prose describes it: the lower-cased runs of
    alphanumeric characters.  It differs from [normalize], which follows
    [\w] and so counts the underscore as a word character. *)
Definition alnum_words (s : string) : gset string :=
  list_to_set (Str.runs Char.isalnum (Str.lower s)).

(** The intersection size over the union size reaches the threshold. *)
Definition jaccard_at_least (threshold : Q) (x y : gset string) : Prop :=
  (threshold <= len (x ∩ y) / len (x ∪ y))%Q.

(** [s] is [p] followed by a version suffix: the letter v and one or more
    decimal digits. *)
Definition version_suffix (s p : string) : Prop :=
  exists ds,
    ds <> "" /\ Str.forallb Char.isdecimal ds = true /\ s = p +:+ "v" +:+ ds.

(** [s.split('/')[-1]], which always exists. *)
Definition last_segment (s : string) : string :=
  default "" (last (Str.split_on "/" s)).

(** ** Sample data *)

Definition leaf (tag t : string) : element := Element tag (Some t) [].

(** The entry of the end-to-end scenario. *)
Definition attention_entry : element :=
  Element (ET.atom "entry") None
    [ leaf (ET.atom "id") "http://arxiv.org/abs/1706.03762v5";
      leaf (ET.atom "published") "2017-06-12T17:57:34Z";
      leaf (ET.atom "title") "Attention is All you Need";
      Element (ET.atom "author") None [leaf (ET.atom "name") "Ashish Vaswani"];
      Element (ET.atom "author") None [leaf (ET.atom "name") "Noam Shazeer"];
      leaf (ET.arxiv "doi") "10.5555/3295222.3295349";
      leaf (ET.arxiv "journal_ref") "NeurIPS 2017" ].

Definition feed_of (entries : list element) : element :=
  Element (ET.atom "feed") None (leaf (ET.atom "title") "query" :: entries).

(** An entry whose identifier text ends with a line break. *)
Definition newline_id_entry : element :=
  Element (ET.atom "entry") None
    [ leaf (ET.atom "id") ("http://arxiv.org/abs/1706.03762v5" +:+ nl);
      leaf (ET.atom "published") "2017-06-12T17:57:34Z";
      leaf (ET.atom "title") "Attention is All you Need";
      Element (ET.atom "author") None [leaf (ET.atom "name") "Ashish Vaswani"] ].

(** The feed of the end-to-end scenario, served with status 200; the
    scholarly package is installed and finds nothing. *)
Definition attention_world : world :=
  {| requests_get := fun _ _ _ =>
       Returns {| status_code := 200; text := "<feed>...</feed>" |};
     fromstring := fun _ => Returns (feed_of [attention_entry]);
     import_scholarly := Returns tt;
     search_pubs := fun _ => Returns (Returns None) |}.

(** No network: every request fails with a library exception; the
    scholarly package is not installed. *)
Definition offline_world : world :=
  {| requests_get := fun _ _ _ => Raises (LibraryError "ConnectionError");
     fromstring := fun _ => Raises (LibraryError "ParseError");
     import_scholarly := Raises ModuleNotFoundError;
     search_pubs := fun _ => Raises (LibraryError "MaxTriesExceededException") |}.

(** The scholarly package is installed and breaks while it is imported,
    with an exception that is not an [ImportError]. *)
Definition broken_import_world : world :=
  {| requests_get := fun _ _ _ => Raises (LibraryError "ConnectionError");
     fromstring := fun _ => Raises (LibraryError "ParseError");
     import_scholarly := Raises AttributeError;
     search_pubs := fun _ => Returns (Returns None) |}.

(** The user interrupts the request. *)
Definition interrupted_world : world :=
  {| requests_get := fun _ _ _ => Raises KeyboardInterrupt;
     fromstring := fun _ => Raises (LibraryError "ParseError");
     import_scholarly := Returns tt;
     search_pubs := fun _ => Raises KeyboardInterrupt |}.

(** A world whose e-print service answers [r] and whose parser reads
    [root]. *)
Definition feed_world (r : response) (root : element) : world :=
  {| requests_get := fun _ _ _ => Returns r;
     fromstring := fun _ => Returns root;
     import_scholarly := Raises ImportError;
     search_pubs := fun _ => Returns (Returns None) |}.

(** A world whose scholarly service yields [result] first. *)
Definition scholar_world (result : publication) : world :=
  {| requests_get := fun _ _ _ => Raises (LibraryError "ConnectionError");
     fromstring := fun _ => Raises (LibraryError "ParseError");
     import_scholarly := Returns tt;
     search_pubs := fun _ => Returns (Returns (Some result)) |}.

Definition sample_publication (authors : option author_field)
    (venue : string) : publication :=
  {| pub_bib := Some {| bib_title := Some "Attention is all you need";
                        bib_author := authors;
                        bib_pub_year := Some "2017";
                        bib_venue := Some venue;
                        bib_journal := None;
                        bib_booktitle := None |};
     pub_url := Some "https://example.org/paper" |}.

Definition icml_publication : publication :=
  sample_publication (Some (AuthorList ["A Vaswani"; "N Shazeer"]))
    "Proceedings of ICML".

Definition jmlr_publication : publication :=
  sample_publication (Some (AuthorStr "A Vaswani")) "Journal of ML Research".

(** ** Classes of events and of worlds *)

(** What only the scholarly search does. *)
Definition scholarly_event (ev : event) : bool :=
  match ev with
  | ImportScholarly | SearchPubs _ | NextPub => true
  | Print MsgScholarlyMissing | Print (MsgScholarError _) => true
  | _ => false
  end.

(** The courtesy delay. *)
Definition delay_event (ev : event) : bool :=
  match ev with
  | Sleep _ => true
  | _ => false
  end.

(** A call that goes to the network. *)
Definition network_event (ev : event) : bool :=
  match ev with
  | HttpGet _ _ _ | SearchPubs _ | NextPub => true
  | _ => false
  end.

(** Every exception the libraries raise belongs to the class [cls]. *)
Definition world_raises_only (cls : exn -> bool) (w : world) : Prop :=
  (forall url p t e, requests_get w url p t = Raises e -> cls e = true)
  /\ (forall s e, fromstring w s = Raises e -> cls e = true)
  /\ (forall t e, search_pubs w t = Raises e -> cls e = true)
  /\ (forall t e, search_pubs w t = Returns (Raises e) -> cls e = true).



(** The one request of the e-print search. *)
Definition arxiv_request (title : string) (n : Z) : event :=
  HttpGet arxiv_url (arxiv_params title n) 30.

(** What a search makes of an exception [e] raised after the events [t]:
    caught by a handler for the class [cls], reported with the line [m] and
    turned into [None], or passed on to the caller. *)
Definition handled (cls : exn -> bool) (e : exn) (t : list event)
    (m : message) : io (option string) :=
  if cls e then (Returns None, t ++ [Print m]) else (Raises e, t).

(** The title the scholarly search compares (line 154). *)
Definition result_title_of (result : publication) : string :=
  get_default (bib_title (bib_of result)) "".

(** An entry that names no author. *)
Definition anonymous_entry : element :=
  Element (ET.atom "entry") None
    [ leaf (ET.atom "id") "http://arxiv.org/abs/1706.03762v5";
      leaf (ET.atom "published") "2017-06-12T17:57:34Z";
      leaf (ET.atom "title") "Attention is All you Need" ].

Definition ok_response : response :=
  {| status_code := 200; text := "<feed>...</feed>" |}.

(** The text of an e-print record, written out: the layout that
    [_format_arxiv_bibtex] produces by joining its six lines. *)
Definition arxiv_record (surname author_str title arxiv_id year : string)
    : string :=
  "@article{arxiv:" +:+ surname +:+ year +:+ "," +:+ nl
  +:+ "  author    = {" +:+ author_str +:+ "}," +:+ nl
  +:+ "  title     = {{" +:+ title +:+ "}}," +:+ nl
  +:+ "  journal   = {arXiv preprint arXiv:" +:+ arxiv_id +:+ "}," +:+ nl
  +:+ "  year      = {" +:+ year +:+ "}" +:+ nl
  +:+ "}" +:+ nl.

(** ** Tactics *)

(** Unfolds the plumbing of [io]. *)
Ltac run_io :=
  unfold result_of, trace_of, try_except, bind, call, emit, lift, ret in *;
  simpl in *.

(** Case analysis on every [match] of the goal. *)
Ltac case_matches :=
  repeat match goal with
         | |- context [match ?x with _ => _ end] => destruct x eqn:?
         end.

(** * Properties *)

(** ** Strings and runs *)

Module StrFacts.

Lemma app_nil_l (s : string) : "" +:+ s = s.
Proof. reflexivity. Qed.

Lemma app_cons (c : ascii) (s1 s2 : string) :
  String c s1 +:+ s2 = String c (s1 +:+ s2).
Proof. reflexivity. Qed.

Lemma app_nil_r (s : string) : s +:+ "" = s.
Proof. induction s as [|c s IH]; [reflexivity|]. now rewrite app_cons, IH. Qed.

Lemma app_assoc (s1 s2 s3 : string) : (s1 +:+ s2) +:+ s3 = s1 +:+ s2 +:+ s3.
Proof.
  induction s1 as [|c s1 IH]; [reflexivity|]. now rewrite !app_cons, IH.
Qed.

Lemma app_eq_nil (s1 s2 : string) : s1 +:+ s2 = "" -> s1 = "" /\ s2 = "".
Proof. destruct s1; [now rewrite app_nil_l|]. rewrite app_cons. discriminate. Qed.

Lemma take_drop_while p s : Str.take_while p s +:+ Str.drop_while p s = s.
Proof.
  induction s as [|c s IH]; [reflexivity|]. simpl.
  destruct (p c); [|reflexivity]. now rewrite app_cons, IH.
Qed.

Lemma take_while_inside p s : Str.forallb p (Str.take_while p s) = true.
Proof.
  induction s as [|c s IH]; [reflexivity|]. simpl.
  destruct (p c) eqn:E; [|reflexivity]. simpl. now rewrite E.
Qed.

Lemma drop_while_outside p s : Str.starts_outside p (Str.drop_while p s).
Proof.
  induction s as [|c s IH]; [exact I|]. simpl.
  destruct (p c) eqn:E; [exact IH|exact E].
Qed.

Lemma drop_while_length p s :
  String.length (Str.drop_while p s) <= String.length s.
Proof.
  induction s as [|c s IH]; [reflexivity|]. simpl.
  destruct (p c); simpl; lia.
Qed.

Lemma runs_outside p c s : p c = false -> Str.runs p (String c s) = Str.runs p s.
Proof. intros E. simpl. now rewrite E. Qed.

(** A character inside [p] opens the run that extends as far as [p] holds. *)
Lemma runs_inside p c s :
  p c = true ->
  Str.runs p (String c s)
  = String c (Str.take_while p s) :: Str.runs p (Str.drop_while p s).
Proof.
  revert c. induction s as [|c' s IH]; intros c E.
  - simpl. now rewrite E.
  - change (Str.runs p (String c (String c' s)))
      with (if p c then
              if p c' then
                match Str.runs p (String c' s) with
                | t :: ts => String c t :: ts
                | [] => [String c EmptyString]
                end
              else String c EmptyString :: Str.runs p (String c' s)
            else Str.runs p (String c' s)).
    rewrite E. simpl Str.take_while. simpl Str.drop_while.
    destruct (p c') eqn:E'; [|reflexivity].
    now rewrite (IH c' E').
Qed.

Lemma runs_whole p t : t <> "" -> Str.forallb p t = true -> Str.runs p t = [t].
Proof.
  destruct t as [|c t]; [congruence|]. intros _. simpl Str.forallb.
  intros [E H]%andb_prop. rewrite (runs_inside p c t E).
  assert (G : forall u, Str.forallb p u = true ->
                Str.take_while p u = u /\ Str.drop_while p u = "").
  { induction u as [|d u IH]; [now split|]. simpl.
    intros [Ed Hu]%andb_prop. rewrite Ed.
    destruct (IH Hu) as [-> ->]. now split. }
  destruct (G t H) as [-> ->]. reflexivity.
Qed.

(** Runs do not cross a position that is followed by a character outside
    [p]. *)
Lemma runs_app_starts p s1 s2 :
  Str.starts_outside p s2 ->
  Str.runs p (s1 +:+ s2) = Str.runs p s1 ++ Str.runs p s2.
Proof.
  intros Hs2. remember (String.length s1) as n eqn:Hn.
  revert s1 Hn. induction (lt_wf n) as [n _ IH]. intros s1 ->.
  destruct s1 as [|c s1]; [reflexivity|].
  rewrite app_cons. destruct (p c) eqn:E.
  - rewrite !(runs_inside p c) by exact E.
    assert (Htw : Str.take_while p (s1 +:+ s2) = Str.take_while p s1
                  /\ Str.drop_while p (s1 +:+ s2) = Str.drop_while p s1 +:+ s2).
    { clear IH. induction s1 as [|d s1 IHs].
      - rewrite !app_nil_l. destruct s2 as [|d s2]; [now split|].
        simpl in *. rewrite Hs2. now split.
      - rewrite app_cons. simpl. destruct (p d); [|now split].
        destruct IHs as [-> ->]. now split. }
    destruct Htw as [-> ->]. simpl. f_equal.
    eapply IH; [|reflexivity].
    pose proof (drop_while_length p s1). simpl. lia.
  - rewrite !(runs_outside p c) by exact E.
    eapply IH; [|reflexivity]. simpl. lia.
Qed.

Lemma runs_app_ends p s1 s2 :
  Str.ends_outside p s1 ->
  Str.runs p (s1 +:+ s2) = Str.runs p s1 ++ Str.runs p s2.
Proof.
  intros [->|(s' & c & -> & E)]; [reflexivity|].
  rewrite app_assoc, app_cons, app_nil_l.
  rewrite (runs_app_starts p s' (String c s2)) by exact E.
  rewrite (runs_app_starts p s' (String c "")) by exact E.
  rewrite !(runs_outside p c) by exact E. simpl.
  now rewrite List.app_nil_r.
Qed.

Lemma ends_outside_cons p c s :
  s <> "" -> Str.ends_outside p s -> Str.ends_outside p (String c s).
Proof.
  intros Hne [->|(s' & d & -> & E)]; [congruence|].
  right. exists (String c s'), d. now rewrite app_cons.
Qed.

Lemma ends_outside_app p s1 s2 :
  s2 <> "" -> Str.ends_outside p s2 -> Str.ends_outside p (s1 +:+ s2).
Proof.
  intros Hne [->|(s' & d & -> & E)]; [congruence|].
  right. exists (s1 +:+ s'), d. now rewrite app_assoc.
Qed.

Lemma run_of_runs p t s : In t (Str.runs p s) -> Str.run_of p t s.
Proof.
  remember (String.length s) as n eqn:Hn.
  revert s Hn. induction (lt_wf n) as [n _ IH]. intros s -> Hin.
  destruct s as [|c s]; [destruct Hin|].
  destruct (p c) eqn:E.
  - rewrite (runs_inside p c s E) in Hin. destruct Hin as [<-|Hin].
    + split; [discriminate|]. split.
      * simpl. now rewrite E, take_while_inside.
      * exists "", (Str.drop_while p s). rewrite app_nil_l, app_cons.
        rewrite take_drop_while. split; [reflexivity|].
        split; [now left|apply drop_while_outside].
    + pose proof (drop_while_length p s) as Hlen.
      destruct (IH (String.length (Str.drop_while p s))
                  ltac:(simpl; lia) _ eq_refl Hin)
        as (Hne & Hall & pre & post & Hs & Hpre & Hpost).
      split; [exact Hne|]. split; [exact Hall|].
      exists (String c (Str.take_while p s) +:+ pre), post.
      split.
      * rewrite app_assoc, <- Hs, app_cons. now rewrite take_drop_while.
      * split; [|exact Hpost].
        apply ends_outside_app; [|exact Hpre].
        intros ->. rewrite app_nil_l in Hs.
        pose proof (drop_while_outside p s) as Hout. rewrite Hs in Hout.
        destruct t as [|d t]; [congruence|].
        rewrite app_cons in Hout. simpl in Hout, Hall.
        rewrite Hout in Hall. discriminate.
  - rewrite (runs_outside p c s E) in Hin.
    destruct (IH (String.length s) ltac:(simpl; lia) _ eq_refl Hin)
      as (Hne & Hall & pre & post & Hs & Hpre & Hpost).
    split; [exact Hne|]. split; [exact Hall|].
    exists (String c pre), post. split; [now rewrite app_cons, <- Hs|].
    split; [|exact Hpost].
    destruct pre as [|d pre].
    + right. exists "", c. now rewrite app_nil_l.
    + apply ends_outside_cons; [discriminate|exact Hpre].
Qed.

Lemma runs_run_of p t s : Str.run_of p t s -> In t (Str.runs p s).
Proof.
  intros (Hne & Hall & pre & post & -> & Hpre & Hpost).
  rewrite (runs_app_ends p pre _ Hpre).
  rewrite (runs_app_starts p t post Hpost).
  rewrite (runs_whole p t Hne Hall).
  apply in_or_app. right. now left.
Qed.

End StrFacts.

(** ** The similarity guard *)

Lemma elem_of_normalize (t s : string) :
  t ∈ normalize s <-> Str.run_of Char.isword t (Str.lower s).
Proof.
  unfold normalize, Str.findall_word.
  rewrite elem_of_list_to_set, list_elem_of_In. split.
  - apply StrFacts.run_of_runs.
  - apply StrFacts.runs_run_of.
Qed.

Lemma len_pos (x : gset string) : x ≠ ∅ -> (0 < Z.of_nat (size x))%Z.
Proof.
  intros Hne. assert (size x ≠ 0%nat) by (intros H%size_empty_iff; apply Hne; now apply leibniz_equiv).
  lia.
Qed.

(** The comparison of the quotient with 7/10, on the sizes themselves. *)
Lemma jaccard_sizes (x y : gset string) :
  x ∪ y ≠ ∅ ->
  jaccard_at_least default_threshold x y
  <-> 7 * size (x ∪ y) <= 10 * size (x ∩ y).
Proof.
  intros Hne%len_pos. unfold jaccard_at_least, default_threshold, len.
  set (i := Z.of_nat (size (x ∩ y))). set (u := Z.of_nat (size (x ∪ y))) in *.
  assert (Hq : (inject_Z i / inject_Z u == i # Z.to_pos u)%Q).
  { unfold Qdiv, Qinv, inject_Z. simpl Qnum.
    destruct u as [|pu|pu]; try lia. simpl.
    unfold Qeq, Qmult. simpl. lia. }
  rewrite Hq. unfold Qle. simpl Qnum. simpl Qden.
  rewrite Z2Pos.id by exact Hne. subst i u. lia.
Qed.

Lemma title_similar_unfold (title1 title2 : string) :
  _title_similar title1 title2 = true
  <-> normalize title1 ≠ ∅ /\ normalize title2 ≠ ∅
      /\ jaccard_at_least default_threshold (normalize title1) (normalize title2).
Proof.
  unfold _title_similar, _title_similar_with, jaccard_at_least.
  destruct (bool_decide_reflect (normalize title1 = ∅)) as [H1|H1];
    destruct (bool_decide_reflect (normalize title2 = ∅)) as [H2|H2];
    simpl; try (split; [discriminate|tauto]).
  rewrite Qle_bool_iff. tauto.
Qed.

Lemma binary64_agrees_upto_spec (n i u : nat) :
  binary64_agrees_upto n = true ->
  0 < u <= n -> i <= u -> reaches_binary64 i u = reaches_exact i u.
Proof.
  unfold binary64_agrees_upto. intros Hall Hu Hi.
  rewrite List.forallb_forall in Hall.
  destruct u as [|u]; [lia|].
  specialize (Hall u). rewrite List.forallb_forall in Hall.
  apply Bool.eqb_prop, Hall; apply in_seq; lia.
Qed.

Lemma binary64_agrees_256 : binary64_agrees_upto 256 = true.
Proof. vm_compute. reflexivity. Qed.

(** For every union of at most 256 tokens the binary64 comparison of the
    source and the exact comparison of the model give the same answer. *)
Lemma binary64_agrees (i u : nat) :
  0 < u <= 256 -> i <= u -> reaches_binary64 i u = reaches_exact i u.
Proof. apply binary64_agrees_upto_spec, binary64_agrees_256. Qed.

(** So on titles of at most 256 distinct tokens altogether the check is the
    source's, binary64 comparison included. *)
Lemma title_similar_binary64 (title1 title2 : string) :
  size (normalize title1 ∪ normalize title2) <= 256 ->
  _title_similar title1 title2
  = negb (bool_decide (normalize title1 = ∅)
          || bool_decide (normalize title2 = ∅))
    && reaches_binary64 (size (normalize title1 ∩ normalize title2))
         (size (normalize title1 ∪ normalize title2)).
Proof.
  intros Hsize. unfold _title_similar, _title_similar_with.
  destruct (bool_decide_reflect (normalize title1 = ∅)) as [H1|H1];
    [reflexivity|].
  destruct (bool_decide_reflect (normalize title2 = ∅)) as [H2|H2];
    [reflexivity|].
  simpl. rewrite binary64_agrees; [reflexivity| |].
  - split; [|exact Hsize].
    assert (Hne : normalize title1 ∪ normalize title2 ≠ ∅) by set_solver.
    apply len_pos in Hne. lia.
  - apply subseteq_size.
    etrans; [apply intersection_subseteq_l|apply union_subseteq_l].
Qed.

(** C3.  The similarity check gives the same answer with its two titles
    exchanged: [_title_similar a b = _title_similar b a]. *)
Theorem title_similar_symmetric (title1 title2 : string) :
  _title_similar title1 title2 = _title_similar title2 title1.
Proof.
  unfold _title_similar, _title_similar_with.
  rewrite (comm_L (∩) (normalize title1)), (comm_L (∪) (normalize title1)).
  now rewrite orb_comm.
Qed.

(** C2, as amended.  The token set of a title holds exactly the maximal
    non-empty runs of word characters (alphanumeric or underscore) of the
    lower-cased title; the check answers true exactly when both token sets
    are non-empty and intersection size over union size is at least 7/10;
    so it answers false when a token set is empty and true for equal
    non-empty token sets. *)
Theorem title_similar_spec (title1 title2 : string) :
  let words1 := normalize title1 in
  let words2 := normalize title2 in
  (forall t, t ∈ words1 <-> Str.run_of Char.isword t (Str.lower title1))
  /\ (forall t, t ∈ words2 <-> Str.run_of Char.isword t (Str.lower title2))
  /\ (_title_similar title1 title2 = true
      <-> words1 ≠ ∅ /\ words2 ≠ ∅
          /\ (7 # 10 <= len (words1 ∩ words2) / len (words1 ∪ words2))%Q)
  /\ (words1 = ∅ \/ words2 = ∅ -> _title_similar title1 title2 = false)
  /\ (words1 ≠ ∅ -> words1 = words2 -> _title_similar title1 title2 = true).
Proof.
  intros words1 words2. subst words1 words2.
  split; [intros t; apply elem_of_normalize|].
  split; [intros t; apply elem_of_normalize|].
  split; [apply title_similar_unfold|].
  split.
  - intros Hempty. apply not_true_is_false.
    intros (H1 & H2 & _)%title_similar_unfold. tauto.
  - intros Hne Heq. apply title_similar_unfold.
    rewrite <- Heq. split; [exact Hne|]. split; [exact Hne|].
    apply jaccard_sizes.
    + rewrite (idemp_L (∪)). exact Hne.
    + rewrite (idemp_L (∪)), (idemp_L (∩)). lia.
Qed.

(** C2, the counterexample: on the title ["_"] the check answers true,
    although the title has no alphanumeric run at all. *)
Lemma title_similar_underscore :
  _title_similar "_" "_" = true /\ alnum_words "_" = ∅.
Proof. split; reflexivity. Qed.

(** C2, a second difference: an underscore joins two words into one token,
    so the check rejects a pair whose alphanumeric runs coincide. *)
Lemma title_similar_joined_words :
  _title_similar "deep_learning" "deep learning" = false
  /\ alnum_words "deep_learning" = alnum_words "deep learning".
Proof. split; vm_compute; reflexivity. Qed.

(** ** The version suffix of the identifier *)

Lemma digits_to_end_intro (ds rest : string) :
  ds <> "" -> Str.forallb Char.isdecimal ds = true ->
  rest = "" \/ rest = nl ->
  digits_to_end (ds +:+ rest) = Some rest.
Proof.
  intros Hne Hds Hrest. induction ds as [|c ds IH]; [congruence|].
  simpl in Hds. apply andb_prop in Hds as [Hc Hds].
  rewrite StrFacts.app_cons. simpl. rewrite Hc.
  destruct ds as [|d ds].
  - rewrite StrFacts.app_nil_l.
    destruct Hrest as [-> | ->]; reflexivity.
  - now rewrite IH.
Qed.

Lemma digits_to_end_elim (s rest : string) :
  digits_to_end s = Some rest ->
  exists ds, ds <> "" /\ Str.forallb Char.isdecimal ds = true
             /\ s = ds +:+ rest /\ (rest = "" \/ rest = nl).
Proof.
  revert rest. induction s as [|c s IH]; intros rest; [discriminate|].
  simpl. destruct (Char.isdecimal c) eqn:Hc; [|discriminate].
  destruct (digits_to_end s) as [r|] eqn:Hs.
  - intros [= <-]. destruct (IH r eq_refl) as (ds & Hne & Hds & -> & Hr).
    exists (String c ds). repeat split; try easy.
    simpl. now rewrite Hc.
  - destruct (String.eqb_spec s "") as [->|Hn]; simpl.
    + intros [= <-]. exists (String c ""). repeat split; try easy.
      * simpl. now rewrite Hc.
      * now left.
    + destruct (String.eqb_spec s nl) as [->|Hn']; [|discriminate].
      intros [= <-]. exists (String c ""). repeat split; try easy.
      * simpl. now rewrite Hc.
      * now right.
Qed.

Lemma digits_to_end_v (x y : string) : digits_to_end (x +:+ "v" +:+ y) = None.
Proof.
  assert (H : forall z,
             String.eqb (z +:+ "v" +:+ y) "" || String.eqb (z +:+ "v" +:+ y) nl
             = false).
  { intros [|a [|b z]]; rewrite ?StrFacts.app_cons, ?StrFacts.app_nil_l;
      simpl; try reflexivity; destruct (Ascii.eqb a "010"); reflexivity. }
  induction x as [|c x IH]; [reflexivity|].
  rewrite StrFacts.app_cons. simpl. rewrite IH, H.
  now destruct (Char.isdecimal c).
Qed.

Lemma strip_version_cons (c : ascii) (s : string) :
  strip_version (String c s)
  = if Ascii.eqb c "v" then
      match digits_to_end s with
      | Some rest => rest
      | None => String c (strip_version s)
      end
    else String c (strip_version s).
Proof. reflexivity. Qed.

(** A version suffix at the end of the text, or right before the newline
    that ends it, is removed. *)
Lemma strip_version_match (p ds rest : string) :
  ds <> "" -> Str.forallb Char.isdecimal ds = true ->
  rest = "" \/ rest = nl ->
  strip_version (p +:+ "v" +:+ ds +:+ rest) = p +:+ rest.
Proof.
  intros Hne Hds Hrest. induction p as [|c p IH].
  - rewrite !StrFacts.app_nil_l, StrFacts.app_cons, StrFacts.app_nil_l.
    rewrite strip_version_cons. simpl Ascii.eqb.
    now rewrite (digits_to_end_intro ds rest Hne Hds Hrest).
  - rewrite !(StrFacts.app_cons c p), strip_version_cons, IH.
    destruct (Ascii.eqb c "v"); [|reflexivity].
    now rewrite digits_to_end_v.
Qed.

(** Any other text is left as it is. *)
Lemma strip_version_fixed (s : string) :
  strip_version s = s
  \/ exists p ds rest,
       ds <> "" /\ Str.forallb Char.isdecimal ds = true
       /\ (rest = "" \/ rest = nl) /\ s = p +:+ "v" +:+ ds +:+ rest.
Proof.
  induction s as [|c s IH]; [now left|]. simpl.
  destruct (Ascii.eqb_spec c "v") as [->|Hc].
  - destruct (digits_to_end s) as [rest|] eqn:Hd.
    + right. destruct (digits_to_end_elim s rest Hd) as (ds & ? & ? & -> & ?).
      now exists "", ds, rest.
    + destruct IH as [->|(p & ds & rest & ? & ? & ? & ->)]; [now left|].
      right. now exists (String "v" p), ds, rest.
  - destruct IH as [->|(p & ds & rest & ? & ? & ? & ->)]; [now left|].
    right. now exists (String c p), ds, rest.
Qed.

Lemma split_on_not_nil (sep : ascii) (s : string) : Str.split_on sep s <> [].
Proof.
  induction s as [|c s IH]; [discriminate|]. simpl.
  destruct (Ascii.eqb c sep); [discriminate|].
  destruct (Str.split_on sep s); [congruence|discriminate].
Qed.

Lemma last_split_on (s : string) :
  last (Str.split_on "/" s) = Some (last_segment s).
Proof.
  unfold last_segment.
  destruct (last (Str.split_on "/" s)) as [seg|] eqn:E; [reflexivity|].
  apply last_None in E. now apply split_on_not_nil in E.
Qed.

Lemma split_on_free (sep : ascii) (x : string) :
  Str.forallb (fun c => negb (Ascii.eqb c sep)) x = true ->
  Str.split_on sep x = [x].
Proof.
  induction x as [|c x IH]; [reflexivity|]. simpl.
  intros [Hc Hx]%andb_prop. apply negb_true_iff in Hc. rewrite Hc.
  now rewrite (IH Hx).
Qed.

Lemma split_on_cons (sep c : ascii) (s : string) :
  Str.split_on sep (String c s)
  = if Ascii.eqb c sep then "" :: Str.split_on sep s
    else match Str.split_on sep s with
         | t :: ts => String c t :: ts
         | [] => [String c ""]
         end.
Proof. reflexivity. Qed.

(** The pieces of a text end with its last segment, the text ends with it
    too, and text without a separator appended to the whole lands in that
    segment. *)
Lemma split_on_snoc (sep : ascii) (s : string) :
  exists l t pre,
    Str.split_on sep s = l ++ [t]
    /\ s = pre +:+ t
    /\ (l = [] -> pre = "")
    /\ forall x, Str.forallb (fun c => negb (Ascii.eqb c sep)) x = true ->
                 Str.split_on sep (s +:+ x) = l ++ [t +:+ x].
Proof.
  induction s as [|c s (l & t & pre & Hs & Hpre & Hnil & Happ)].
  - exists [], "", "". repeat split; try reflexivity.
    intros x Hx. rewrite StrFacts.app_nil_l. now apply split_on_free.
  - destruct (Ascii.eqb c sep) eqn:Hc.
    + exists ("" :: l), t, (String c pre).
      split; [now rewrite split_on_cons, Hc, Hs|].
      split; [now rewrite StrFacts.app_cons, <- Hpre|].
      split; [discriminate|].
      intros x Hx.
      now rewrite StrFacts.app_cons, split_on_cons, Hc, (Happ x Hx).
    + destruct l as [|t0 l].
      * exists [], (String c t), "".
        split; [now rewrite split_on_cons, Hc, Hs|].
        split.
        { now rewrite StrFacts.app_nil_l, Hpre, (Hnil eq_refl),
            StrFacts.app_nil_l. }
        split; [reflexivity|].
        intros x Hx.
        now rewrite StrFacts.app_cons, split_on_cons, Hc, (Happ x Hx).
      * exists (String c t0 :: l), t, (String c pre).
        split; [now rewrite split_on_cons, Hc, Hs|].
        split; [now rewrite StrFacts.app_cons, <- Hpre|].
        split; [discriminate|].
        intros x Hx.
        now rewrite StrFacts.app_cons, split_on_cons, Hc, (Happ x Hx).
Qed.

(** Text without a slash stays in the last segment. *)
Lemma last_segment_app (p x : string) :
  Str.forallb (fun c => negb (Ascii.eqb c "/")) x = true ->
  last_segment (p +:+ x) = last_segment p +:+ x.
Proof.
  intros Hx. unfold last_segment.
  destruct (split_on_snoc "/" p) as (l & t & pre & -> & _ & _ & Happ).
  rewrite (Happ x Hx). now rewrite !last_snoc.
Qed.

(** The last segment is where the text ends. *)
Lemma last_segment_suffix (s : string) :
  exists pre, s = pre +:+ last_segment s.
Proof.
  unfold last_segment.
  destruct (split_on_snoc "/" s) as (l & t & pre & -> & Hpre & _ & _).
  rewrite last_snoc. now exists pre.
Qed.

Lemma digits_no_slash (ds : string) :
  Str.forallb Char.isdecimal ds = true ->
  Str.forallb (fun c => negb (Ascii.eqb c "/")) ds = true.
Proof.
  induction ds as [|c ds IH]; [reflexivity|]. simpl.
  intros [Hc Hds]%andb_prop. rewrite (IH Hds), andb_true_r.
  destruct (Ascii.eqb_spec c "/") as [->|]; [discriminate Hc|reflexivity].
Qed.

Lemma forallb_app (p : ascii -> bool) (s1 s2 : string) :
  Str.forallb p (s1 +:+ s2) = Str.forallb p s1 && Str.forallb p s2.
Proof.
  induction s1 as [|c s1 IH]; [reflexivity|].
  rewrite StrFacts.app_cons. simpl. now rewrite IH, andb_assoc.
Qed.

Lemma arxiv_id_of_text (entry e : element) (url : string) :
  ET.find (ET.atom "id") entry = Some e -> ET.text e = Some url ->
  arxiv_id_of entry = Returns (strip_version (last_segment url)).
Proof.
  intros Hfind Htext. unfold arxiv_id_of.
  now rewrite Hfind, Htext, last_split_on.
Qed.

Lemma last_char_app (s1 s2 : string) :
  s2 <> "" -> Str.last_char (s1 +:+ s2) = Str.last_char s2.
Proof.
  intros Hne. induction s1 as [|c s1 IH]; [reflexivity|].
  rewrite StrFacts.app_cons.
  change (Str.last_char (String c (s1 +:+ s2)))
    with (match s1 +:+ s2 with
          | EmptyString => Some c
          | String _ _ => Str.last_char (s1 +:+ s2)
          end).
  destruct (s1 +:+ s2) eqn:E; [|exact IH].
  apply StrFacts.app_eq_nil in E as [_ ?]. congruence.
Qed.

Lemma last_char_forallb (p : ascii -> bool) (s : string) :
  s <> "" -> Str.forallb p s = true ->
  exists c, Str.last_char s = Some c /\ p c = true.
Proof.
  induction s as [|c s IH]; [congruence|]. intros _. simpl.
  intros [Hc Hs]%andb_prop. destruct s as [|d s]; [now exists c|].
  apply IH; [discriminate|exact Hs].
Qed.

(** A text with a version suffix ends with a decimal digit. *)
Lemma version_suffix_last (s p : string) :
  version_suffix s p ->
  exists c, Str.last_char s = Some c /\ Char.isdecimal c = true.
Proof.
  intros (ds & Hne & Hds & ->).
  rewrite <- StrFacts.app_assoc, (last_char_app _ ds Hne).
  now apply last_char_forallb.
Qed.

(** The identifier of an entry whose identifier element carries the text
    [url]: the last path segment with a version suffix at its end removed;
    with the suffix removed and the newline kept when one final newline
    follows it; the last path segment itself in every other case. *)
Lemma arxiv_id_of_version (entry e : element) (url : string) :
  ET.find (ET.atom "id") entry = Some e ->
  ET.text e = Some url ->
  (forall p, version_suffix url p ->
             arxiv_id_of entry = Returns (last_segment p))
  /\ (forall q p, url = q +:+ nl -> version_suffix q p ->
                  arxiv_id_of entry = Returns (last_segment p +:+ nl))
  /\ ((forall p, ~ version_suffix url p) ->
      (forall q p, url = q +:+ nl -> ~ version_suffix q p) ->
      arxiv_id_of entry = Returns (last_segment url)).
Proof.
  intros Hfind Htext. rewrite (arxiv_id_of_text entry e url Hfind Htext).
  assert (Hnl : Str.forallb (fun c => negb (Ascii.eqb c "/")) nl = true)
    by reflexivity.
  split; [|split].
  - intros p (ds & Hne & Hds & ->).
    rewrite last_segment_app.
    + rewrite <- (StrFacts.app_nil_r ds) at 1.
      rewrite (strip_version_match _ ds "" Hne Hds (or_introl eq_refl)).
      now rewrite StrFacts.app_nil_r.
    + change ("v" +:+ ds) with (String "v" ds). simpl.
      now apply digits_no_slash.
  - intros q p -> (ds & Hne & Hds & ->).
    rewrite !StrFacts.app_assoc.
    rewrite last_segment_app.
    + now rewrite (strip_version_match _ ds nl Hne Hds (or_intror eq_refl)).
    + change ("v" +:+ ds +:+ nl) with (String "v" (ds +:+ nl)). simpl.
      rewrite forallb_app, Hnl, andb_true_r. now apply digits_no_slash.
  - intros Hno Hno_nl. f_equal.
    destruct (strip_version_fixed (last_segment url))
      as [H|(p & ds & rest & Hne & Hds & Hrest & Hseg)]; [exact H|].
    exfalso. destruct (last_segment_suffix url) as [pre Hurl].
    rewrite Hseg in Hurl. destruct Hrest as [-> | ->].
    + apply (Hno (pre +:+ p)). exists ds. repeat split; try easy.
      now rewrite Hurl, StrFacts.app_nil_r, StrFacts.app_assoc.
    + apply (Hno_nl (pre +:+ p +:+ "v" +:+ ds) (pre +:+ p)).
      * now rewrite Hurl, !StrFacts.app_assoc.
      * exists ds. repeat split; try easy. now rewrite StrFacts.app_assoc.
Qed.


(** ** Collapsing whitespace does not change the tokens *)

Lemma isspace_lower (c : ascii) : Char.isspace (Char.lower c) = Char.isspace c.
Proof. destruct c as [[] [] [] [] [] [] [] []]; reflexivity. Qed.

Lemma isword_not_space (c : ascii) :
  Char.isword c = true -> negb (Char.isspace c) = true.
Proof. destruct c as [[] [] [] [] [] [] [] []]; intros H; easy. Qed.

Lemma map_app (f : ascii -> ascii) (s1 s2 : string) :
  Str.map f (s1 +:+ s2) = Str.map f s1 +:+ Str.map f s2.
Proof.
  induction s1 as [|c s1 IH]; [reflexivity|].
  rewrite StrFacts.app_cons. simpl. now rewrite IH.
Qed.

Lemma lower_join_space (l : list string) :
  Str.lower (Str.join " " l) = Str.join " " (List.map Str.lower l).
Proof.
  unfold Str.join, Str.lower.
  induction l as [|a [|b l] IH]; [reflexivity|reflexivity|].
  change (String.concat " " (a :: b :: l))
    with (a +:+ " " +:+ String.concat " " (b :: l)).
  rewrite !map_app, IH. reflexivity.
Qed.

Lemma runs_cons (p : ascii -> bool) (c : ascii) (s : string) :
  Str.runs p (String c s)
  = if p c then
      match s with
      | EmptyString => [String c EmptyString]
      | String c' _ =>
          if p c' then
            match Str.runs p s with
            | t :: ts => String c t :: ts
            | [] => [String c EmptyString]
            end
          else String c EmptyString :: Str.runs p s
      end
    else Str.runs p s.
Proof. reflexivity. Qed.

(** Runs commute with a character map that respects the class. *)
Lemma runs_map (p : ascii -> bool) (f : ascii -> ascii) (s : string) :
  (forall c, p (f c) = p c) ->
  Str.runs p (Str.map f s) = List.map (Str.map f) (Str.runs p s).
Proof.
  intros Hf. induction s as [|c s IH]; [reflexivity|].
  change (Str.map f (String c s)) with (String (f c) (Str.map f s)).
  rewrite !runs_cons, Hf, IH.
  destruct (p c); [|reflexivity].
  destruct s as [|c' s]; [reflexivity|].
  change (Str.map f (String c' s)) with (String (f c') (Str.map f s)).
  cbv iota beta. rewrite Hf. destruct (p c'); [|reflexivity].
  now destruct (Str.runs p (String c' s)).
Qed.

(** The runs of a text joined by a character outside the class are the runs
    of its pieces. *)
Lemma runs_join (p : ascii -> bool) (sep : ascii) (l : list string) :
  p sep = false ->
  Str.runs p (Str.join (String sep "") l) = flat_map (Str.runs p) l.
Proof.
  intros Hsep. unfold Str.join.
  induction l as [|a [|b l] IH]; [reflexivity| |].
  - simpl. now rewrite List.app_nil_r.
  - change (String.concat (String sep "") (a :: b :: l))
      with (a +:+ String sep "" +:+ String.concat (String sep "") (b :: l)).
    rewrite StrFacts.app_cons, StrFacts.app_nil_l.
    rewrite StrFacts.runs_app_starts by exact Hsep.
    rewrite StrFacts.runs_outside by exact Hsep.
    now rewrite IH.
Qed.

(** Cutting a text into the runs of a wider class first loses no run of a
    narrower one. *)
Lemma runs_refine (p q : ascii -> bool) (s : string) :
  (forall c, p c = true -> q c = true) ->
  flat_map (Str.runs p) (Str.runs q s) = Str.runs p s.
Proof.
  intros Hpq.
  assert (Hout : forall x, Str.starts_outside q x -> Str.starts_outside p x).
  { intros [|c x]; [easy|]. simpl. intros Hq.
    destruct (p c) eqn:Hp; [|reflexivity]. rewrite (Hpq c Hp) in Hq.
    discriminate. }
  remember (String.length s) as n eqn:Hn.
  revert s Hn. induction (lt_wf n) as [n _ IH]. intros s ->.
  destruct s as [|c s]; [reflexivity|].
  destruct (q c) eqn:Hq.
  - rewrite (StrFacts.runs_inside q c s Hq). cbn [flat_map].
    pose proof (StrFacts.drop_while_length q s) as Hlen.
    rewrite (IH (String.length (Str.drop_while q s))
               ltac:(simpl; lia) _ eq_refl).
    rewrite <- StrFacts.runs_app_starts
      by (apply Hout, StrFacts.drop_while_outside).
    now rewrite StrFacts.app_cons, StrFacts.take_drop_while.
  - assert (Hp : p c = false).
    { destruct (p c) eqn:Hp; [|reflexivity]. rewrite (Hpq c Hp) in Hq.
      discriminate. }
    rewrite (StrFacts.runs_outside q c s Hq), (StrFacts.runs_outside p c s Hp).
    apply (IH (String.length s) ltac:(simpl; lia) _ eq_refl).
Qed.

(** [' '.join(t.split())] has the tokens of [t]. *)
Lemma normalize_collapse (t : string) :
  normalize (Str.join " " (Str.split t)) = normalize t.
Proof.
  unfold normalize, Str.findall_word, Str.split. f_equal.
  rewrite lower_join_space.
  rewrite <- (runs_map (fun c => negb (Char.isspace c)) Char.lower)
    by (intros c; now rewrite isspace_lower).
  rewrite (runs_join Char.isword " ") by reflexivity.
  apply runs_refine. exact isword_not_space.
Qed.

Lemma title_similar_collapse (title t : string) :
  _title_similar title (Str.join " " (Str.split t)) = _title_similar title t.
Proof.
  unfold _title_similar, _title_similar_with. now rewrite normalize_collapse.
Qed.

(** ** The e-print search *)

(** The ways the e-print search comes to its answer. *)
Lemma search_arxiv_cases (w : world) (title : string) (n : Z) :
  let t := [arxiv_request title n] in
  match requests_get w arxiv_url (arxiv_params title n) 30 with
  | Raises e =>
      search_arxiv w title n
      = handled isinstance_Exception e t (MsgArxivError e)
  | Returns r =>
      if (status_code r =? 200)%Z then
        match fromstring w (text r) with
        | Raises e =>
            search_arxiv w title n
            = handled isinstance_Exception e t (MsgArxivError e)
        | Returns root =>
            match ET.findall (ET.atom "entry") root with
            | [] => search_arxiv w title n = (Returns None, t)
            | entry :: _ =>
                match entry_to_bibtex title entry with
                | Returns b => search_arxiv w title n = (Returns b, t)
                | Raises e =>
                    search_arxiv w title n
                    = handled isinstance_Exception e t (MsgArxivError e)
                end
            end
        end
      else search_arxiv w title n = (Returns None, t)
  end.
Proof.
  unfold search_arxiv, search_arxiv_body, arxiv_request, handled.
  destruct (requests_get w arxiv_url (arxiv_params title n) 30) as [r|e];
    [|run_io; now destruct (isinstance_Exception e)].
  destruct (status_code r =? 200)%Z eqn:Hs; [|run_io; now rewrite Hs].
  destruct (fromstring w (text r)) as [root|e] eqn:Hroot;
    [|run_io; rewrite Hs; simpl; rewrite Hroot;
      now destruct (isinstance_Exception e)].
  destruct (ET.findall (ET.atom "entry") root) as [|entry rest] eqn:Hentries;
    [run_io; rewrite Hs; simpl; now rewrite Hroot, Hentries|].
  destruct (entry_to_bibtex title entry) as [b|e] eqn:Hb;
    run_io; rewrite Hs; simpl; rewrite Hroot, Hentries, Hb;
    [reflexivity|now destruct (isinstance_Exception e)].
Qed.

(** ** The scholarly search *)

(** The ways the scholarly search comes to its answer. *)
Lemma search_google_scholar_cases (w : world) (title : string) (n : Z) :
  let t := [ImportScholarly; SearchPubs title] in
  match import_scholarly w with
  | Raises e =>
      search_google_scholar w title n
      = handled isinstance_ImportError e [ImportScholarly] MsgScholarlyMissing
  | Returns _ =>
      match search_pubs w title with
      | Raises e =>
          search_google_scholar w title n
          = handled isinstance_Exception e t (MsgScholarError e)
      | Returns (Raises e) =>
          search_google_scholar w title n
          = handled isinstance_Exception e (t ++ [NextPub]) (MsgScholarError e)
      | Returns (Returns None) =>
          search_google_scholar w title n = (Returns None, t ++ [NextPub])
      | Returns (Returns (Some result)) =>
          if _title_similar title (result_title_of result) then
            match scholar_bibtex result (result_title_of result) with
            | Returns b =>
                search_google_scholar w title n
                = (Returns (Some b), t ++ [NextPub])
            | Raises e =>
                search_google_scholar w title n
                = handled isinstance_Exception e (t ++ [NextPub])
                    (MsgScholarError e)
            end
          else search_google_scholar w title n = (Returns None, t ++ [NextPub])
      end
  end.
Proof.
  unfold search_google_scholar, search_google_scholar_body, handled,
    result_title_of.
  destruct (import_scholarly w) as [[]|e];
    [|run_io; now destruct (isinstance_ImportError e)].
  destruct (search_pubs w title) as [[[result|]|e]|e];
    try (run_io; now destruct (isinstance_Exception e)); [|reflexivity].
  destruct (_title_similar title _) eqn:Hsim; [|run_io; now rewrite Hsim].
  destruct (scholar_bibtex result _) as [b|e] eqn:Hb;
    run_io; rewrite Hsim; simpl; rewrite Hb;
    [reflexivity|now destruct (isinstance_Exception e)].
Qed.

(** ** Nothing found *)

(** C5.  When the request is answered, [search_arxiv] returns [None] in
    each of these cases: the status is not 200; the parsed feed has no
    entry; the title of the first entry fails the similarity check against
    the input title. *)
Theorem search_arxiv_nothing (w : world) (title : string) (n : Z)
    (r : response) :
  requests_get w arxiv_url (arxiv_params title n) 30 = Returns r ->
  (status_code r <> 200%Z ->
   result_of (search_arxiv w title n) = Returns None)
  /\ (forall root,
        status_code r = 200%Z -> fromstring w (text r) = Returns root ->
        ET.findall (ET.atom "entry") root = [] ->
        result_of (search_arxiv w title n) = Returns None)
  /\ (forall root entry rest e t,
        status_code r = 200%Z -> fromstring w (text r) = Returns root ->
        ET.findall (ET.atom "entry") root = entry :: rest ->
        ET.find (ET.atom "title") entry = Some e -> ET.text e = Some t ->
        _title_similar title t = false ->
        result_of (search_arxiv w title n) = Returns None).
Proof.
  intros Hget. pose proof (search_arxiv_cases w title n) as H.
  cbv zeta in H. rewrite Hget in H. split; [|split].
  - intros Hs%Z.eqb_neq. rewrite Hs in H. now rewrite H.
  - intros root Hs%Z.eqb_eq Hroot Hnil.
    rewrite Hs, Hroot, Hnil in H. now rewrite H.
  - intros root entry rest e t Hs%Z.eqb_eq Hroot Hentries Hfind Htext Hsim.
    rewrite Hs, Hroot, Hentries in H.
    assert (Hb : entry_to_bibtex title entry = Returns None).
    { unfold entry_to_bibtex, entry_title_of. rewrite Hfind, Htext. simpl.
      now rewrite title_similar_collapse, Hsim. }
    rewrite Hb in H. now rewrite H.
Qed.

(** C5, witness: a 503 answer, an empty feed, and a feed whose first entry
    is another paper. *)
Lemma search_arxiv_nothing_witness :
  result_of (search_arxiv
               (feed_world {| status_code := 503; text := "" |} (feed_of []))
               "Attention Is All You Need" 1) = Returns None
  /\ result_of (search_arxiv
                  (feed_world {| status_code := 200; text := "<feed/>" |}
                     (feed_of []))
                  "Attention Is All You Need" 1) = Returns None
  /\ result_of (search_arxiv
                  (feed_world {| status_code := 200; text := "<feed/>" |}
                     (feed_of [attention_entry]))
                  "Deep Residual Learning for Image Recognition" 1)
     = Returns None.
Proof.
  split; [|split].
  - refine (proj1 (search_arxiv_nothing
                     (feed_world {| status_code := 503; text := "" |}
                        (feed_of []))
                     "Attention Is All You Need" 1
                     {| status_code := 503; text := "" |} eq_refl) _).
    discriminate.
  - exact (proj1 (proj2 (search_arxiv_nothing
                           (feed_world
                              {| status_code := 200; text := "<feed/>" |}
                              (feed_of []))
                           "Attention Is All You Need" 1
                           {| status_code := 200; text := "<feed/>" |}
                           eq_refl))
             (feed_of []) eq_refl eq_refl eq_refl).
  - exact (proj2 (proj2 (search_arxiv_nothing
                           (feed_world
                              {| status_code := 200; text := "<feed/>" |}
                              (feed_of [attention_entry]))
                           "Deep Residual Learning for Image Recognition" 1
                           {| status_code := 200; text := "<feed/>" |}
                           eq_refl))
             (feed_of [attention_entry]) attention_entry []
             (leaf (ET.atom "title") "Attention is All you Need")
             "Attention is All you Need" eq_refl eq_refl eq_refl eq_refl
             eq_refl eq_refl).
Defined.

(** ** Exceptions *)

Lemma first_author_lastname_raises authors e :
  first_author_lastname authors = Raises e -> isinstance_Exception e = true.
Proof.
  unfold first_author_lastname, last_word. case_matches;
    try discriminate; now intros [= <-].
Qed.

Lemma format_arxiv_raises arxiv_id title authors year doi journal_ref e :
  _format_arxiv_bibtex arxiv_id title authors year doi journal_ref = Raises e ->
  isinstance_Exception e = true.
Proof.
  unfold _format_arxiv_bibtex, join_items, obind.
  destruct (first_author_lastname authors) eqn:Hl;
    [|intros [= <-]; now apply first_author_lastname_raises in Hl].
  destruct (mapM id authors); [discriminate|now intros [= <-]].
Qed.

(** What the module's own expressions raise is an [Exception]. *)
Lemma entry_to_bibtex_raises title entry e :
  entry_to_bibtex title entry = Raises e -> isinstance_Exception e = true.
Proof.
  unfold entry_to_bibtex, entry_title_of, year_of, arxiv_id_of, obind.
  destruct (ET.find (ET.atom "title") entry) as [te|]; [|discriminate].
  destruct (ET.text te); [|now intros [= <-]].
  destruct (negb _); [discriminate|].
  destruct (ET.find (ET.atom "published") entry) as [pe|];
    [destruct (ET.text pe); [|now intros [= <-]]|];
    (destruct (ET.find (ET.atom "id") entry) as [ie|];
     [destruct (ET.text ie); [|now intros [= <-]];
      destruct (last _); [|now intros [= <-]]|]);
    (destruct (_format_arxiv_bibtex _ _ _ _ _ _) eqn:Hf;
     [discriminate|intros [= <-]; now apply format_arxiv_raises in Hf]).
Qed.

Lemma scholar_bibtex_raises result result_title e :
  scholar_bibtex result result_title = Raises e ->
  isinstance_Exception e = true.
Proof.
  unfold scholar_bibtex, obind.
  destruct (first_author_lastname _) eqn:Hl;
    [discriminate|intros [= <-]; now apply first_author_lastname_raises in Hl].
Qed.

Lemma handled_returns (e : exn) (t : list event) (m : message) :
  isinstance_Exception e = true ->
  result_of (handled isinstance_Exception e t m) = Returns None.
Proof. intros H. unfold handled. now rewrite H. Qed.

(** With libraries that raise instances of [Exception] only, [search_arxiv]
    returns. *)
Lemma search_arxiv_returns (w : world) (title : string) (n : Z) :
  world_raises_only isinstance_Exception w ->
  exists r, result_of (search_arxiv w title n) = Returns r.
Proof.
  intros (Hget & Hparse & _). pose proof (search_arxiv_cases w title n) as H.
  cbv zeta in H.
  destruct (requests_get _ _ _ _) as [r|e] eqn:Eget.
  - destruct (status_code r =? 200)%Z; [|rewrite H; now eexists].
    destruct (fromstring w (text r)) as [root|e] eqn:Eparse.
    + destruct (ET.findall _ root) as [|entry rest]; [rewrite H; now eexists|].
      destruct (entry_to_bibtex title entry) as [b|e] eqn:Eb;
        rewrite H; [now eexists|].
      exists None. apply handled_returns. now apply entry_to_bibtex_raises in Eb.
    + rewrite H. exists None. apply handled_returns. eauto.
  - rewrite H. exists None. apply handled_returns. eauto.
Qed.

(** Likewise [search_google_scholar], once the import has succeeded or has
    failed with an [ImportError]. *)
Lemma search_google_scholar_returns (w : world) (title : string) (n : Z) :
  world_raises_only isinstance_Exception w ->
  (forall e, import_scholarly w = Raises e -> isinstance_ImportError e = true) ->
  exists r, result_of (search_google_scholar w title n) = Returns r.
Proof.
  intros (_ & _ & Hcall & Hnext) Himport.
  pose proof (search_google_scholar_cases w title n) as H. cbv zeta in H.
  destruct (import_scholarly w) as [[]|e] eqn:Eimp.
  - destruct (search_pubs w title) as [[[result|]|e]|e] eqn:Epubs.
    + destruct (_title_similar _ _); [|rewrite H; now eexists].
      destruct (scholar_bibtex _ _) as [b|e] eqn:Eb; rewrite H; [now eexists|].
      exists None. apply handled_returns. now apply scholar_bibtex_raises in Eb.
    + rewrite H. now eexists.
    + rewrite H. exists None. apply handled_returns. eauto.
    + rewrite H. exists None. apply handled_returns. eauto.
  - rewrite H. exists None. unfold handled. now rewrite (Himport e eq_refl).
Qed.

(** C7, as amended.  Printing is taken not to fail.  Wherever an exception
    arises in [search_arxiv] (the request, the parser, the making of the
    record), the function returns [None] when the exception is an instance
    of [Exception] and passes it on to the caller when it is not.  In
    [search_google_scholar] an exception of the import is caught, with
    [None] returned, when it is an [ImportError], and passed on when it is
    not; after the import, an exception of the search call, of the first
    [next] or of the making of the record is caught when it is an instance
    of [Exception] and passed on when it is not.  What the module's own
    expressions raise is always caught.  Hence with libraries that raise
    instances of [Exception] only, and an import that fails with
    [ImportError] only, both functions always return; and whatever either
    function passes on is no instance of [Exception], or is not an
    [ImportError] and came from the import. *)
Theorem search_exceptions (w : world) (title : string) (n : Z) :
  let caught (e : exn) : outcome (option string) :=
    if isinstance_Exception e then Returns None else Raises e in
  (forall e, requests_get w arxiv_url (arxiv_params title n) 30 = Raises e ->
             result_of (search_arxiv w title n) = caught e)
  /\ (forall r e,
        requests_get w arxiv_url (arxiv_params title n) 30 = Returns r ->
        status_code r = 200%Z -> fromstring w (text r) = Raises e ->
        result_of (search_arxiv w title n) = caught e)
  /\ (forall r root entry rest e,
        requests_get w arxiv_url (arxiv_params title n) 30 = Returns r ->
        status_code r = 200%Z -> fromstring w (text r) = Returns root ->
        ET.findall (ET.atom "entry") root = entry :: rest ->
        entry_to_bibtex title entry = Raises e ->
        result_of (search_arxiv w title n) = Returns None)
  /\ (forall e, result_of (search_arxiv_body w title n) = Raises e ->
                result_of (search_arxiv w title n) = caught e)
  /\ (forall e, import_scholarly w = Raises e ->
                result_of (search_google_scholar w title n)
                = if isinstance_ImportError e then Returns None else Raises e)
  /\ (forall e, import_scholarly w = Returns tt ->
                search_pubs w title = Raises e ->
                result_of (search_google_scholar w title n) = caught e)
  /\ (forall e, import_scholarly w = Returns tt ->
                search_pubs w title = Returns (Raises e) ->
                result_of (search_google_scholar w title n) = caught e)
  /\ (forall result e,
        import_scholarly w = Returns tt ->
        search_pubs w title = Returns (Returns (Some result)) ->
        _title_similar title (result_title_of result) = true ->
        scholar_bibtex result (result_title_of result) = Raises e ->
        result_of (search_google_scholar w title n) = Returns None)
  /\ (forall e, import_scholarly w = Returns tt ->
                result_of (search_google_scholar_body w title) = Raises e ->
                result_of (search_google_scholar w title n) = caught e)
  /\ (world_raises_only isinstance_Exception w ->
      exists r, result_of (search_arxiv w title n) = Returns r)
  /\ (world_raises_only isinstance_Exception w ->
      (forall e, import_scholarly w = Raises e ->
                 isinstance_ImportError e = true) ->
      exists r, result_of (search_google_scholar w title n) = Returns r)
  /\ (forall e, result_of (search_arxiv w title n) = Raises e ->
                isinstance_Exception e = false)
  /\ (forall e, result_of (search_google_scholar w title n) = Raises e ->
                isinstance_Exception e = false
                \/ (import_scholarly w = Raises e
                    /\ isinstance_ImportError e = false)).
Proof.
  cbv zeta.
  pose proof (search_arxiv_cases w title n) as Ha. cbv zeta in Ha.
  pose proof (search_google_scholar_cases w title n) as Hs. cbv zeta in Hs.
  unfold handled in Ha, Hs.
  repeat apply conj.
  - intros e Hget. rewrite Hget in Ha. rewrite Ha.
    now destruct (isinstance_Exception e).
  - intros r e Hget Hstatus%Z.eqb_eq Hparse.
    rewrite Hget, Hstatus, Hparse in Ha. rewrite Ha.
    now destruct (isinstance_Exception e).
  - intros r root entry rest e Hget Hstatus%Z.eqb_eq Hparse Hentries Hrec.
    rewrite Hget, Hstatus, Hparse, Hentries, Hrec in Ha. rewrite Ha.
    now rewrite (entry_to_bibtex_raises title entry e Hrec).
  - intros e Hbody. unfold search_arxiv.
    destruct (search_arxiv_body w title n) as [[a|e'] t]; [discriminate|].
    run_io. injection Hbody as ->. now destruct (isinstance_Exception e).
  - intros e Himp. rewrite Himp in Hs. rewrite Hs.
    now destruct (isinstance_ImportError e).
  - intros e Himp Hpubs. rewrite Himp, Hpubs in Hs. rewrite Hs.
    now destruct (isinstance_Exception e).
  - intros e Himp Hpubs. rewrite Himp, Hpubs in Hs. rewrite Hs.
    now destruct (isinstance_Exception e).
  - intros result e Himp Hpubs Hsim Hrec.
    rewrite Himp, Hpubs, Hsim, Hrec in Hs. rewrite Hs.
    now rewrite (scholar_bibtex_raises _ _ e Hrec).
  - intros e Himp Hbody. unfold search_google_scholar. rewrite Himp.
    destruct (search_google_scholar_body w title) as [[a|e'] t];
      [discriminate|].
    run_io. injection Hbody as ->. now destruct (isinstance_Exception e).
  - apply search_arxiv_returns.
  - apply search_google_scholar_returns.
  - intros e. unfold search_arxiv.
    destruct (search_arxiv_body w title n) as [[a|e'] t]; [discriminate|].
    run_io. destruct (isinstance_Exception e') eqn:He'; [discriminate|].
    now intros [= <-].
  - intros e He. clear Ha.
    destruct (import_scholarly w) as [[]|e'] eqn:Eimp.
    + left.
      destruct (search_pubs w title) as [[[result|]|e']|e'];
        try destruct (_title_similar _ _);
        try destruct (scholar_bibtex _ _) as [b|e'];
        try destruct (isinstance_Exception e') eqn:He';
        rewrite Hs in He; try discriminate; now injection He as <-.
    + rewrite Hs in He. destruct (isinstance_ImportError e') eqn:He';
        [discriminate|]. injection He as <-. now right.
Qed.

(** C7, witness: without network and without the scholarly package both
    searches return; an interrupt during the request leaves
    [search_arxiv]; an [AttributeError] of the import leaves
    [search_google_scholar]. *)
Lemma search_exceptions_witness :
  (exists r, result_of (search_arxiv offline_world
                          "Attention Is All You Need" 1) = Returns r)
  /\ result_of (search_google_scholar offline_world
                  "Attention Is All You Need" 1) = Returns None
  /\ result_of (search_arxiv interrupted_world
                  "Attention Is All You Need" 1) = Raises KeyboardInterrupt
  /\ result_of (search_google_scholar broken_import_world
                  "Attention Is All You Need" 1) = Raises AttributeError.
Proof.
  pose proof (search_exceptions offline_world "Attention Is All You Need" 1)
    as H. cbv zeta in H.
  destruct H as (_ & _ & _ & _ & Himport & _ & _ & _ & _ & Harxiv & _).
  split; [|split; [|split]].
  - apply Harxiv. repeat split; intros; simpl in *; try discriminate;
      match goal with H : Raises _ = Raises _ |- _ => injection H as <- end;
      reflexivity.
  - exact (Himport ModuleNotFoundError eq_refl).
  - exact (proj1 (search_exceptions interrupted_world
                    "Attention Is All You Need" 1) KeyboardInterrupt eq_refl).
  - exact (proj1 (proj2 (proj2 (proj2 (proj2
             (search_exceptions broken_import_world
                "Attention Is All You Need" 1)))))
             AttributeError eq_refl).
Defined.

(** C7, the counterexample: the scholarly package is installed and its
    import breaks with an [AttributeError]; [search_google_scholar] passes
    the exception on to its caller. *)
Lemma search_google_scholar_import_breaks :
  search_google_scholar broken_import_world "Attention Is All You Need" 1
  = (Raises AttributeError, [ImportScholarly]).
Proof. reflexivity. Qed.

(** An interrupt during the request leaves [search_arxiv] too. *)
Lemma search_arxiv_interrupted :
  search_arxiv interrupted_world "Attention Is All You Need" 1
  = (Raises KeyboardInterrupt,
     [arxiv_request "Attention Is All You Need" 1]).
Proof. reflexivity. Qed.

(** Without network and without the scholarly package both searches report
    and return [None]. *)
Lemma searches_offline :
  search_arxiv offline_world "Attention Is All You Need" 1
  = (Returns None,
     [arxiv_request "Attention Is All You Need" 1;
      Print (MsgArxivError (LibraryError "ConnectionError"))])
  /\ search_google_scholar offline_world "Attention Is All You Need" 1
     = (Returns None, [ImportScholarly; Print MsgScholarlyMissing]).
Proof. split; reflexivity. Qed.

(** ** The orchestrator *)

Lemma truthy_app_nl (s : string) : Str.truthy (s +:+ nl) = true.
Proof. destruct s; reflexivity. Qed.

Lemma format_arxiv_truthy arxiv_id title authors year doi journal_ref s :
  _format_arxiv_bibtex arxiv_id title authors year doi journal_ref = Returns s ->
  Str.truthy s = true.
Proof.
  unfold _format_arxiv_bibtex, obind.
  destruct (first_author_lastname authors); [|discriminate].
  destruct (join_items author_sep authors); [|discriminate].
  intros [= <-]. apply truthy_app_nl.
Qed.

(** The record of an entry is what the formatter made of it. *)
Lemma entry_to_bibtex_found (title : string) (entry : element) (s : string) :
  entry_to_bibtex title entry = Returns (Some s) ->
  exists entry_title year arxiv_id,
    entry_title_of entry = Some (Returns entry_title)
    /\ _title_similar title entry_title = true
    /\ year_of entry = Returns year
    /\ arxiv_id_of entry = Returns arxiv_id
    /\ _format_arxiv_bibtex arxiv_id entry_title (author_list_of entry) year
         (optional_text (ET.arxiv "doi") entry)
         (optional_text (ET.arxiv "journal_ref") entry)
       = Returns s.
Proof.
  unfold entry_to_bibtex, obind.
  destruct (entry_title_of entry) as [[entry_title|]|]; try discriminate.
  destruct (_title_similar title entry_title) eqn:Hsim; [|discriminate]. simpl.
  destruct (year_of entry) as [year|]; [|discriminate].
  destruct (arxiv_id_of entry) as [arxiv_id|]; [|discriminate].
  destruct (_format_arxiv_bibtex _ _ _ _ _ _) as [b|] eqn:Hb; [|discriminate].
  intros [= <-]. now exists entry_title, year, arxiv_id.
Qed.

(** A record returned by [search_arxiv] comes from the first entry of a
    feed served with status 200, after the one request. *)
Lemma search_arxiv_found (w : world) (title : string) (n : Z) (s : string) :
  result_of (search_arxiv w title n) = Returns (Some s) ->
  exists r root entry rest,
    requests_get w arxiv_url (arxiv_params title n) 30 = Returns r
    /\ status_code r = 200%Z
    /\ fromstring w (text r) = Returns root
    /\ ET.findall (ET.atom "entry") root = entry :: rest
    /\ entry_to_bibtex title entry = Returns (Some s)
    /\ search_arxiv w title n = (Returns (Some s), [arxiv_request title n]).
Proof.
  intros Hres. pose proof (search_arxiv_cases w title n) as H.
  cbv zeta in H. unfold handled in H.
  destruct (requests_get _ _ _ _) as [r|e].
  - destruct (status_code r =? 200)%Z eqn:Hs;
      [|rewrite H in Hres; discriminate].
    destruct (fromstring w (text r)) as [root|e] eqn:Hroot.
    + destruct (ET.findall _ root) as [|entry rest] eqn:Hentries;
        [rewrite H in Hres; discriminate|].
      destruct (entry_to_bibtex title entry) as [b|e] eqn:Hb.
      * rewrite H in Hres. injection Hres as ->.
        exists r, root, entry, rest. apply Z.eqb_eq in Hs. now repeat split.
      * rewrite H in Hres. now destruct (isinstance_Exception e).
    + rewrite H in Hres. now destruct (isinstance_Exception e).
  - rewrite H in Hres. now destruct (isinstance_Exception e).
Qed.

(** Every call of [search_arxiv] sends its request. *)
Lemma search_arxiv_requests (w : world) (title : string) (n : Z) :
  In (arxiv_request title n) (trace_of (search_arxiv w title n)).
Proof.
  pose proof (search_arxiv_cases w title n) as H.
  cbv zeta in H. unfold handled in H.
  destruct (requests_get _ _ _ _) as [r|e];
    [destruct (status_code r =? 200)%Z;
     [destruct (fromstring w (text r)) as [root|e];
      [destruct (ET.findall _ root) as [|entry rest];
       [|destruct (entry_to_bibtex title entry) as [b|e]]|]|]|];
    rewrite H; try destruct (isinstance_Exception e); now left.
Qed.

(** Every call of [search_google_scholar] starts with the import. *)
Lemma search_google_scholar_imports (w : world) (title : string) (n : Z) :
  In ImportScholarly (trace_of (search_google_scholar w title n)).
Proof.
  pose proof (search_google_scholar_cases w title n) as H.
  cbv zeta in H. unfold handled in H.
  destruct (import_scholarly w) as [[]|e];
    [destruct (search_pubs w title) as [[[result|]|e]|e];
     [destruct (_title_similar _ _);
      [destruct (scholar_bibtex _ _) as [b|e]|]| | |]|];
    rewrite H; try destruct (isinstance_Exception e);
    try destruct (isinstance_ImportError e); now left.
Qed.

(** C1.  When [search_arxiv] returns a record, [fallback_search] with
    [use_arxiv] enabled returns exactly that record, and what it did holds
    no event of the scholarly search and no delay: the announcement, the
    one request of the e-print search, the success line.  Every call of
    [search_google_scholar] would have left its import in the trace. *)
Theorem fallback_arxiv_first (w : world) (title : string)
    (use_scholar : bool) (s : string) :
  result_of (search_arxiv w title 1) = Returns (Some s) ->
  result_of (fallback_search w title true use_scholar) = Returns (Some s)
  /\ trace_of (fallback_search w title true use_scholar)
     = [Print MsgTryArxiv; arxiv_request title 1; Print MsgArxivFound]
  /\ Forall (fun ev => scholarly_event ev = false /\ delay_event ev = false)
       (trace_of (fallback_search w title true use_scholar))
  /\ (forall w' title' n,
        In ImportScholarly (trace_of (search_google_scholar w' title' n))).
Proof.
  intros Hres.
  destruct (search_arxiv_found w title 1 s Hres)
    as (r & root & entry & rest & _ & _ & _ & _ & Hentry & Hrun).
  destruct (entry_to_bibtex_found title entry s Hentry)
    as (entry_title & year & arxiv_id & _ & _ & _ & _ & Hformat).
  apply format_arxiv_truthy in Hformat.
  assert (Hfb : fallback_search w title true use_scholar
                = (Returns (Some s),
                   [Print MsgTryArxiv; arxiv_request title 1;
                    Print MsgArxivFound])).
  { unfold fallback_search, arxiv_stage. rewrite Hrun.
    unfold bind, emit, call, ret, truthy. now rewrite Hformat. }
  rewrite Hfb. split; [reflexivity|]. split; [reflexivity|].
  split; [|exact search_google_scholar_imports].
  repeat constructor.
Qed.

(** C1, witness: the end-to-end scenario. *)
Lemma fallback_arxiv_first_witness :
  exists s,
    result_of (fallback_search attention_world "Attention Is All You Need"
                 true true) = Returns (Some s)
    /\ trace_of (fallback_search attention_world "Attention Is All You Need"
                   true true)
       = [Print MsgTryArxiv; arxiv_request "Attention Is All You Need" 1;
          Print MsgArxivFound].
Proof.
  eexists.
  pose proof (fallback_arxiv_first attention_world
                "Attention Is All You Need" true _ eq_refl) as (H1 & H2 & _).
  split; [exact H1|exact H2].
Defined.

(** C8.  With both flags disabled [fallback_search] returns [None] and does
    nothing at all: its trace is empty, whereas every call of
    [search_arxiv] sends a request and every call of
    [search_google_scholar] runs the import. *)
Theorem fallback_both_disabled (w : world) (title : string) :
  fallback_search w title false false = (Returns None, [])
  /\ Forall (fun ev => network_event ev = false)
       (trace_of (fallback_search w title false false))
  /\ (forall n, In (arxiv_request title n) (trace_of (search_arxiv w title n)))
  /\ (forall n,
        In ImportScholarly (trace_of (search_google_scholar w title n))).
Proof.
  split; [reflexivity|]. split; [constructor|].
  split; intros n.
  - apply search_arxiv_requests.
  - apply search_google_scholar_imports.
Qed.

(** With only the e-print search disabled, the delay comes before the
    scholarly search. *)
Lemma fallback_scholar_only :
  fallback_search offline_world "Attention Is All You Need" false true
  = (Returns None,
     [Print MsgTryScholar; Sleep 1; ImportScholarly;
      Print MsgScholarlyMissing; Print MsgScholarNotFound]).
Proof. reflexivity. Qed.

(** ** Containment up to case *)







(** ** The records *)

(** The record of a scholarly result, field by field. *)
Lemma scholar_bibtex_shape (result : publication) (result_title s : string) :
  scholar_bibtex result result_title = Returns s ->
  let bib := bib_of result in
  let venue := venue_of bib in
  exists surname tail,
    first_author_lastname (List.map Some (authors_of bib)) = Returns surname
    /\ s = "@" +:+ pub_type_of venue +:+ "{scholar:" +:+ surname
           +:+ get_default (bib_pub_year bib) "" +:+ "," +:+ nl
           +:+ "  author    = {" +:+ Str.join author_sep (authors_of bib)
           +:+ "}," +:+ nl
           +:+ "  title     = {" +:+ result_title +:+ "}," +:+ nl
           +:+ (if String.eqb (pub_type_of venue) "inproceedings"
                then "  booktitle = {" else "  journal   = {")
           +:+ venue +:+ "}," +:+ nl +:+ tail.
Proof.
  intros H. cbv zeta. unfold scholar_bibtex, obind in H.
  destruct (first_author_lastname _) as [surname|]; [|discriminate].
  exists surname. injection H as <-.
  destruct (String.eqb (pub_type_of _) "inproceedings");
    destruct (Str.truthy (get_default (bib_pub_year _) ""));
    destruct (Str.truthy (get_default (pub_url result) ""));
    eexists; (split; [reflexivity|]);
    cbn [List.app Str.join String.concat];
    rewrite !StrFacts.app_assoc; reflexivity.
Qed.

(** A record returned by [search_google_scholar] comes from the first
    result, which passed the guard. *)
Lemma search_google_scholar_found (w : world) (title : string) (n : Z)
    (s : string) :
  result_of (search_google_scholar w title n) = Returns (Some s) ->
  exists result,
    import_scholarly w = Returns tt
    /\ search_pubs w title = Returns (Returns (Some result))
    /\ _title_similar title (result_title_of result) = true
    /\ scholar_bibtex result (result_title_of result) = Returns s.
Proof.
  intros Hres. pose proof (search_google_scholar_cases w title n) as H.
  cbv zeta in H. unfold handled in H.
  destruct (import_scholarly w) as [[]|e];
    [|rewrite H in Hres; now destruct (isinstance_ImportError e)].
  destruct (search_pubs w title) as [[[result|]|e]|e];
    try (rewrite H in Hres; now destruct (isinstance_Exception e));
    [|rewrite H in Hres; discriminate].
  destruct (_title_similar _ _) eqn:Hsim; [|rewrite H in Hres; discriminate].
  destruct (scholar_bibtex _ _) as [b|e] eqn:Hb;
    [|rewrite H in Hres; now destruct (isinstance_Exception e)].
  rewrite H in Hres. injection Hres as ->. now exists result.
Qed.



(** The two venues of the examples, as the search writes them. *)
Lemma scholar_record_examples :
  search_google_scholar (scholar_world icml_publication)
    "Attention Is All You Need" 1
  = (Returns (Some
       ("@inproceedings{scholar:Vaswani2017," +:+ nl
        +:+ "  author    = {A Vaswani and" +:+ nl
        +:+ "               N Shazeer}," +:+ nl
        +:+ "  title     = {Attention is all you need}," +:+ nl
        +:+ "  booktitle = {Proceedings of ICML}," +:+ nl
        +:+ "  year      = {2017}," +:+ nl
        +:+ "  url       = {https://example.org/paper}," +:+ nl
        +:+ "}" +:+ nl)),
     [ImportScholarly; SearchPubs "Attention Is All You Need"; NextPub])
  /\ result_of (search_google_scholar (scholar_world jmlr_publication)
                  "Attention Is All You Need" 1)
     = Returns (Some
         ("@article{scholar:Vaswani2017," +:+ nl
          +:+ "  author    = {A Vaswani}," +:+ nl
          +:+ "  title     = {Attention is all you need}," +:+ nl
          +:+ "  journal   = {Journal of ML Research}," +:+ nl
          +:+ "  year      = {2017}," +:+ nl
          +:+ "  url       = {https://example.org/paper}," +:+ nl
          +:+ "}" +:+ nl)).
Proof. split; reflexivity. Qed.

(** The record of the e-print search, field by field. *)
Lemma format_arxiv_shape arxiv_id title authors year doi journal_ref s :
  _format_arxiv_bibtex arxiv_id title authors year doi journal_ref = Returns s ->
  exists surname author_str,
    first_author_lastname authors = Returns surname
    /\ join_items author_sep authors = Returns author_str
    /\ s = "@article{arxiv:" +:+ surname +:+ year +:+ "," +:+ nl
           +:+ "  author    = {" +:+ author_str +:+ "}," +:+ nl
           +:+ "  title     = {{" +:+ title +:+ "}}," +:+ nl
           +:+ "  journal   = {arXiv preprint arXiv:" +:+ arxiv_id +:+ "},"
           +:+ nl
           +:+ "  year      = {" +:+ year +:+ "}" +:+ nl
           +:+ "}" +:+ nl.
Proof.
  unfold _format_arxiv_bibtex, obind.
  destruct (first_author_lastname authors) as [surname|]; [|discriminate].
  destruct (join_items author_sep authors) as [author_str|]; [|discriminate].
  intros [= <-]. exists surname, author_str.
  split; [reflexivity|]. split; [reflexivity|].
  cbn [List.app Str.join String.concat].
  rewrite !StrFacts.app_assoc. reflexivity.
Qed.

(** The formatter writes the record out of a surname and an author list
    it could derive. *)
Lemma format_arxiv_record arxiv_id title authors year doi journal_ref
    surname author_str :
  first_author_lastname authors = Returns surname ->
  join_items author_sep authors = Returns author_str ->
  _format_arxiv_bibtex arxiv_id title authors year doi journal_ref
  = Returns (arxiv_record surname author_str title arxiv_id year).
Proof.
  intros Hsurname Hauthors. unfold _format_arxiv_bibtex, obind, arxiv_record.
  rewrite Hsurname, Hauthors. f_equal.
  cbn [List.app Str.join String.concat].
  rewrite !StrFacts.app_assoc. reflexivity.
Qed.

(** The record of an entry, and when there is one. *)
Lemma entry_to_bibtex_record (title : string) (entry : element) (s : string) :
  entry_to_bibtex title entry = Returns (Some s)
  <-> exists entry_title year arxiv_id surname author_str,
        entry_title_of entry = Some (Returns entry_title)
        /\ _title_similar title entry_title = true
        /\ year_of entry = Returns year
        /\ arxiv_id_of entry = Returns arxiv_id
        /\ first_author_lastname (author_list_of entry) = Returns surname
        /\ join_items author_sep (author_list_of entry) = Returns author_str
        /\ s = arxiv_record surname author_str entry_title arxiv_id year.
Proof.
  split.
  - intros (entry_title & year & arxiv_id & Ht & Hsim & Hy & Hid & Hformat)
      %entry_to_bibtex_found.
    destruct (format_arxiv_shape _ _ _ _ _ _ _ Hformat)
      as (surname & author_str & Hsurname & Hauthors & ->).
    now exists entry_title, year, arxiv_id, surname, author_str.
  - intros (entry_title & year & arxiv_id & surname & author_str
            & Ht & Hsim & Hy & Hid & Hsurname & Hauthors & ->).
    unfold entry_to_bibtex, obind. rewrite Ht, Hsim, Hy, Hid. cbn [negb].
    now rewrite (format_arxiv_record _ _ _ _ _ _ _ _ Hsurname Hauthors).
Qed.

(** What [search_arxiv] makes of a feed served with status 200 is what
    [entry_to_bibtex] makes of its first entry, unless that raises. *)
Lemma search_arxiv_served (w : world) (title : string) (n : Z) (r : response)
    (root entry : element) (rest : list element) (s : string) :
  requests_get w arxiv_url (arxiv_params title n) 30 = Returns r ->
  status_code r = 200%Z ->
  fromstring w (text r) = Returns root ->
  ET.findall (ET.atom "entry") root = entry :: rest ->
  result_of (search_arxiv w title n) = Returns (Some s)
  <-> entry_to_bibtex title entry = Returns (Some s).
Proof.
  intros Hget Hstatus%Z.eqb_eq Hparse Hentries.
  pose proof (search_arxiv_cases w title n) as H. cbv zeta in H.
  rewrite Hget, Hstatus, Hparse, Hentries in H. unfold handled in H.
  destruct (entry_to_bibtex title entry) as [b|e]; rewrite H.
  - simpl. split; congruence.
  - destruct (isinstance_Exception e); simpl; split; discriminate.
Qed.

(** C10.  For a feed served with status 200, [search_arxiv] returns a
    record exactly when the first entry has a title that passes the check
    and a year, an identifier, a surname and an author list can be derived
    from it; the record is then the [@article] made of these, with the
    journal field [arXiv preprint arXiv:] followed by the identifier.
    Neither the condition nor the record mentions the DOI or the journal
    reference of the entry, and the formatter gives the same answer
    whatever values of the two it is handed. *)
Theorem arxiv_record_article (w : world) (title : string) (n : Z)
    (r : response) (root entry : element) (rest : list element) :
  requests_get w arxiv_url (arxiv_params title n) 30 = Returns r ->
  status_code r = 200%Z ->
  fromstring w (text r) = Returns root ->
  ET.findall (ET.atom "entry") root = entry :: rest ->
  (forall s,
      result_of (search_arxiv w title n) = Returns (Some s)
      <-> exists entry_title year arxiv_id surname author_str,
            entry_title_of entry = Some (Returns entry_title)
            /\ _title_similar title entry_title = true
            /\ year_of entry = Returns year
            /\ arxiv_id_of entry = Returns arxiv_id
            /\ first_author_lastname (author_list_of entry) = Returns surname
            /\ join_items author_sep (author_list_of entry)
               = Returns author_str
            /\ s = "@article{arxiv:" +:+ surname +:+ year +:+ "," +:+ nl
                   +:+ "  author    = {" +:+ author_str +:+ "}," +:+ nl
                   +:+ "  title     = {{" +:+ entry_title +:+ "}}," +:+ nl
                   +:+ "  journal   = {arXiv preprint arXiv:" +:+ arxiv_id
                   +:+ "}," +:+ nl
                   +:+ "  year      = {" +:+ year +:+ "}" +:+ nl
                   +:+ "}" +:+ nl)
  /\ (forall arxiv_id entry_title authors year doi journal_ref
             doi' journal_ref',
        _format_arxiv_bibtex arxiv_id entry_title authors year doi journal_ref
        = _format_arxiv_bibtex arxiv_id entry_title authors year
            doi' journal_ref').
Proof.
  intros Hget Hstatus Hparse Hentries. split; [|reflexivity].
  intros s.
  rewrite (search_arxiv_served w title n r root entry rest s
             Hget Hstatus Hparse Hentries).
  apply entry_to_bibtex_record.
Qed.

(** C10, witness: the entry of the scenario carries a DOI and a journal
    reference, and the record of the lookup is the [@article] with the
    preprint journal field. *)
Lemma arxiv_record_article_witness :
  optional_text (ET.arxiv "doi") attention_entry
  = Some "10.5555/3295222.3295349"
  /\ optional_text (ET.arxiv "journal_ref") attention_entry
     = Some "NeurIPS 2017"
  /\ result_of (search_arxiv attention_world "Attention Is All You Need" 1)
     = Returns (Some
         ("@article{arxiv:Vaswani2017," +:+ nl
          +:+ "  author    = {Ashish Vaswani and" +:+ nl
          +:+ "               Noam Shazeer}," +:+ nl
          +:+ "  title     = {{Attention is All you Need}}," +:+ nl
          +:+ "  journal   = {arXiv preprint arXiv:1706.03762}," +:+ nl
          +:+ "  year      = {2017}" +:+ nl
          +:+ "}" +:+ nl)).
Proof.
  split; [reflexivity|]. split; [reflexivity|].
  apply (proj1 (arxiv_record_article attention_world
                  "Attention Is All You Need" 1
                  {| status_code := 200; text := "<feed>...</feed>" |}
                  (feed_of [attention_entry]) attention_entry []
                  eq_refl eq_refl eq_refl eq_refl)).
  exists "Attention is All you Need", "2017", "1706.03762", "Vaswani",
    ("Ashish Vaswani" +:+ author_sep +:+ "Noam Shazeer").
  repeat split; reflexivity.
Defined.

(** The end-to-end scenario: the entry carries a DOI and a journal
    reference, and the record shows neither. *)
Lemma attention_record :
  fallback_search attention_world "Attention Is All You Need" true true
  = (Returns (Some
       ("@article{arxiv:Vaswani2017," +:+ nl
        +:+ "  author    = {Ashish Vaswani and" +:+ nl
        +:+ "               Noam Shazeer}," +:+ nl
        +:+ "  title     = {{Attention is All you Need}}," +:+ nl
        +:+ "  journal   = {arXiv preprint arXiv:1706.03762}," +:+ nl
        +:+ "  year      = {2017}" +:+ nl
        +:+ "}" +:+ nl)),
     [Print MsgTryArxiv; arxiv_request "Attention Is All You Need" 1;
      Print MsgArxivFound])
  /\ optional_text (ET.arxiv "doi") attention_entry
     = Some "10.5555/3295222.3295349"
  /\ optional_text (ET.arxiv "journal_ref") attention_entry
     = Some "NeurIPS 2017".
Proof. repeat split; reflexivity. Qed.

(** The surname of the key: [Unknown] without authors, else the last
    whitespace-separated word of the first author. *)
Lemma first_author_lastname_spec authors surname :
  first_author_lastname authors = Returns surname
  <-> (authors = [] /\ surname = "Unknown")
      \/ (exists a rest, authors = Some a :: rest
                         /\ last (Str.split a) = Some surname).
Proof.
  unfold first_author_lastname, last_word. split.
  - destruct authors as [|[a|] rest]; try discriminate.
    + intros [= <-]. now left.
    + destruct (last (Str.split a)) as [w|] eqn:E; [|discriminate].
      intros [= <-]. right. now exists a, rest.
  - intros [[-> ->]|(a & rest & -> & ->)]; reflexivity.
Qed.

(** C9, as amended.  The key of a record returned by [search_arxiv] is
    [arxiv:] followed by a surname and the year of the first entry; the
    key of a record returned by [search_google_scholar] is [scholar:]
    followed by a surname and the year of the first result; the surname is
    the last whitespace-separated word of the first author, and [Unknown]
    when the record lists no author. *)
Theorem cite_key_form :
  (forall w title n s,
      result_of (search_arxiv w title n) = Returns (Some s) ->
      exists r root entry rest surname year tail,
        requests_get w arxiv_url (arxiv_params title n) 30 = Returns r
        /\ fromstring w (text r) = Returns root
        /\ ET.findall (ET.atom "entry") root = entry :: rest
        /\ first_author_lastname (author_list_of entry) = Returns surname
        /\ year_of entry = Returns year
        /\ s = "@article{" +:+ "arxiv:" +:+ surname +:+ year +:+ "," +:+ tail)
  /\ (forall w title n s,
        result_of (search_google_scholar w title n) = Returns (Some s) ->
        exists result pub_type surname tail,
          search_pubs w title = Returns (Returns (Some result))
          /\ first_author_lastname
               (List.map Some (authors_of (bib_of result))) = Returns surname
          /\ s = "@" +:+ pub_type +:+ "{" +:+ "scholar:" +:+ surname
                 +:+ get_default (bib_pub_year (bib_of result)) ""
                 +:+ "," +:+ tail)
  /\ (forall authors surname,
        first_author_lastname authors = Returns surname
        <-> (authors = [] /\ surname = "Unknown")
            \/ (exists a rest, authors = Some a :: rest
                               /\ last (Str.split a) = Some surname)).
Proof.
  split; [|split; [|exact first_author_lastname_spec]].
  - intros w title n s
      (r & root & entry & rest & Hget & _ & Hroot & Hentries & Hentry & _)
        %search_arxiv_found.
    destruct (entry_to_bibtex_found title entry s Hentry)
      as (entry_title & year & arxiv_id & _ & _ & Hy & _ & Hformat).
    destruct (format_arxiv_shape _ _ _ _ _ _ _ Hformat)
      as (surname & author_str & Hsurname & _ & ->).
    exists r, root, entry, rest, surname, year. eexists.
    repeat (split; [eassumption|]).
    reflexivity.
  - intros w title n s (result & _ & Hpubs & _ & Hb)%search_google_scholar_found.
    destruct (scholar_bibtex_shape _ _ _ Hb) as (surname & tail & Hs & ->).
    exists result, (pub_type_of (venue_of (bib_of result))), surname.
    eexists. split; [exact Hpubs|]. split; [exact Hs|].
    reflexivity.
Qed.

(** C9, the counterexample: a matching entry that names no author yields
    the key [arxiv:Unknown2017], which no author of the entry accounts
    for. *)
Lemma cite_key_without_author :
  author_list_of anonymous_entry = []
  /\ result_of (search_arxiv (feed_world ok_response (feed_of [anonymous_entry]))
                  "Attention Is All You Need" 1)
     = Returns (Some
         ("@article{arxiv:Unknown2017," +:+ nl
          +:+ "  author    = {}," +:+ nl
          +:+ "  title     = {{Attention is All you Need}}," +:+ nl
          +:+ "  journal   = {arXiv preprint arXiv:1706.03762}," +:+ nl
          +:+ "  year      = {2017}" +:+ nl
          +:+ "}" +:+ nl)).
Proof. split; reflexivity. Qed.

(** ** The identifier in the record *)

(** C4, as amended.  For a feed served with status 200 whose first entry
    passes the title check and yields a year, a surname and an author
    list, and whose identifier element carries the text [url], the record
    that [search_arxiv] returns names, after [arXiv preprint arXiv:], this
    identifier: when [url] ends with a version suffix (the letter v and
    decimal digits), the last path segment with the suffix removed; when
    [url] ends with such a suffix followed by one final newline, the last
    path segment with the suffix removed and the newline kept; in every
    other case the last path segment unchanged. *)
Theorem arxiv_id_version (w : world) (title : string) (n : Z) (r : response)
    (root entry e : element) (rest : list element)
    (url entry_title year surname author_str : string) :
  requests_get w arxiv_url (arxiv_params title n) 30 = Returns r ->
  status_code r = 200%Z ->
  fromstring w (text r) = Returns root ->
  ET.findall (ET.atom "entry") root = entry :: rest ->
  ET.find (ET.atom "id") entry = Some e ->
  ET.text e = Some url ->
  entry_title_of entry = Some (Returns entry_title) ->
  _title_similar title entry_title = true ->
  year_of entry = Returns year ->
  first_author_lastname (author_list_of entry) = Returns surname ->
  join_items author_sep (author_list_of entry) = Returns author_str ->
  let record (arxiv_id : string) : string :=
    "@article{arxiv:" +:+ surname +:+ year +:+ "," +:+ nl
    +:+ "  author    = {" +:+ author_str +:+ "}," +:+ nl
    +:+ "  title     = {{" +:+ entry_title +:+ "}}," +:+ nl
    +:+ "  journal   = {arXiv preprint arXiv:" +:+ arxiv_id +:+ "}," +:+ nl
    +:+ "  year      = {" +:+ year +:+ "}" +:+ nl
    +:+ "}" +:+ nl in
  (forall p, version_suffix url p ->
             result_of (search_arxiv w title n)
             = Returns (Some (record (last_segment p))))
  /\ (forall q p, url = q +:+ nl -> version_suffix q p ->
                  result_of (search_arxiv w title n)
                  = Returns (Some (record (last_segment p +:+ nl))))
  /\ ((forall p, ~ version_suffix url p) ->
      (forall q p, url = q +:+ nl -> ~ version_suffix q p) ->
      result_of (search_arxiv w title n)
      = Returns (Some (record (last_segment url)))).
Proof.
  intros Hget Hstatus Hparse Hentries Hfind Htext Htitle Hsim Hyear
    Hsurname Hauthors record.
  assert (Hrec : forall arxiv_id,
             arxiv_id_of entry = Returns arxiv_id ->
             result_of (search_arxiv w title n)
             = Returns (Some (record arxiv_id))).
  { intros arxiv_id Hid.
    apply (search_arxiv_served w title n r root entry rest _
             Hget Hstatus Hparse Hentries).
    apply entry_to_bibtex_record.
    now exists entry_title, year, arxiv_id, surname, author_str. }
  destruct (arxiv_id_of_version entry e url Hfind Htext) as (H1 & H2 & H3).
  split; [|split].
  - intros p Hp. apply Hrec, H1, Hp.
  - intros q p Hq Hp. apply Hrec, (H2 q p Hq Hp).
  - intros Hno Hno_nl. apply Hrec, (H3 Hno Hno_nl).
Qed.

(** C4, witness: the scenario, whose identifier text ends with [v5]. *)
Lemma arxiv_id_version_witness :
  result_of (search_arxiv attention_world "Attention Is All You Need" 1)
  = Returns (Some
      ("@article{arxiv:Vaswani2017," +:+ nl
       +:+ "  author    = {Ashish Vaswani and" +:+ nl
       +:+ "               Noam Shazeer}," +:+ nl
       +:+ "  title     = {{Attention is All you Need}}," +:+ nl
       +:+ "  journal   = {arXiv preprint arXiv:1706.03762}," +:+ nl
       +:+ "  year      = {2017}" +:+ nl
       +:+ "}" +:+ nl)).
Proof.
  refine (proj1 (arxiv_id_version attention_world
                   "Attention Is All You Need" 1
                   {| status_code := 200; text := "<feed>...</feed>" |}
                   (feed_of [attention_entry]) attention_entry
                   (leaf (ET.atom "id") "http://arxiv.org/abs/1706.03762v5")
                   [] "http://arxiv.org/abs/1706.03762v5"
                   "Attention is All you Need" "2017" "Vaswani"
                   ("Ashish Vaswani" +:+ author_sep +:+ "Noam Shazeer")
                   eq_refl eq_refl eq_refl eq_refl eq_refl eq_refl eq_refl
                   eq_refl eq_refl eq_refl eq_refl)
            "http://arxiv.org/abs/1706.03762" _).
  exists "5". repeat split. discriminate.
Defined.

(** C4, the counterexample: the identifier text [.../1706.03762v5] followed
    by a newline does not end with a version suffix, its last path segment
    is [1706.03762v5] with the newline, and yet the record of the lookup
    names another identifier: the suffix before the newline is gone. *)
Lemma arxiv_id_newline :
  (forall p, ~ version_suffix ("http://arxiv.org/abs/1706.03762v5" +:+ nl) p)
  /\ ET.find (ET.atom "id") newline_id_entry
     = Some (leaf (ET.atom "id") ("http://arxiv.org/abs/1706.03762v5" +:+ nl))
  /\ last_segment ("http://arxiv.org/abs/1706.03762v5" +:+ nl)
     = "1706.03762v5" +:+ nl
  /\ result_of (search_arxiv
                  (feed_world ok_response (feed_of [newline_id_entry]))
                  "Attention Is All You Need" 1)
     = Returns (Some
         ("@article{arxiv:Vaswani2017," +:+ nl
          +:+ "  author    = {Ashish Vaswani}," +:+ nl
          +:+ "  title     = {{Attention is All you Need}}," +:+ nl
          +:+ "  journal   = {arXiv preprint arXiv:1706.03762" +:+ nl
          +:+ "}," +:+ nl
          +:+ "  year      = {2017}" +:+ nl
          +:+ "}" +:+ nl)).
Proof.
  split; [|repeat split; reflexivity].
  intros p (c & Hlast & Hc)%version_suffix_last.
  vm_compute in Hlast. injection Hlast as <-. discriminate Hc.
Qed.
